(** * toc_tool_AGT: PDF bookmarks -> table of contents (PDF + Excel) + master ledger

    A shallow embedding of [toc_tool_AGT.py] and the properties of its
    outline flattener, page layout, sheet writer, ledger merge and batch
    runner. *)

From Stdlib Require Import ZArith QArith Qround Lqa List String Ascii DecimalString Lia.
From stdpp Require Import base option list gmap.

Open Scope Z_scope.

(** ** Python text

    A Python [str] is a sequence of Unicode code points; [len] counts code
    points, so the ellipsis U+2026 is one character. *)

Definition char := N.
Abbreviation pystr := (list char).

(** ASCII literals. *)
Definition py (s : string) : pystr := map N_of_ascii (list_ascii_of_string s).

(** [str.isspace] on one code point (the table behind [str.strip()]). *)
Definition is_space (c : char) : bool :=
  ((9 <=? c) && (c <=? 13) || (28 <=? c) && (c <=? 32)
   || (c =? 133) || (c =? 160) || (c =? 5760)
   || (8192 <=? c) && (c <=? 8202)
   || (c =? 8232) || (c =? 8233) || (c =? 8239) || (c =? 8287)
   || (c =? 12288))%N.

Fixpoint lstrip (s : pystr) : pystr :=
  match s with
  | c :: r => if is_space c then lstrip r else s
  | [] => []
  end.

Definition rstrip (s : pystr) : pystr := rev (lstrip (rev s)).

Definition strip (s : pystr) : pystr := lstrip (rstrip s).

(** [s * n] for a string [s] and an integer [n]: empty when [n <= 0]. *)
Definition str_mul (s : pystr) (n : Z) : pystr :=
  concat (replicate (Z.to_nat n) s).

(** ** The outline of a document

    [reader.outline] is a nested Python list of destination objects.  A
    [Sub] is a Python list ([isinstance(it, list)]); a [Dest] is any other
    object: [title] is what [getattr(it, "title", str(it))] yields,
    [target] is the result of [reader.get_destination_page_number(it)]
    ([None] when that call, or the [+ 1] on its result, raises) and
    [childs] is the object's own child-list attribute, which the tool never
    reads. *)

#[warnings="-register-all"] Inductive item : Type :=
| Dest (title : pystr) (target : option Z) (childs : list item)
| Sub (group : list item).

(** A table-of-contents entry [(level, title, page_number_1_based | None)]. *)
Definition entry : Type := Z * pystr * option Z.

Definition level_of (e : entry) : Z := e.1.1.
Definition title_of (e : entry) : pystr := e.1.2.
Definition page_of (e : entry) : option Z := e.2.

(** The [try: page_num = ... + 1 / except: page_num = None] block. *)
Definition page_num (target : option Z) : option Z :=
  match target with
  | Some p => Some (p + 1)
  | None => None
  end.

(** [items.append((level, str(title).strip(), page_num))] *)
Definition mk_entry (level : Z) (title : pystr) (target : option Z) : entry :=
  (level, strip title, page_num target).

(** [walk_outline(seq, level)], with [items] returned instead of appended
    to.  The index loop [while i < len(seq)] with its look-ahead at
    [seq[i + 1]] is the match on the head of the list and on the head of
    the rest; [i += 1] twice is the recursion on [rest'].  The recursion
    into a nested list goes through the [item] that holds it. *)
Fixpoint walk_group (g : item) (level : Z) {struct g} : list entry :=
  match g with
  | Dest _ _ _ => []
  | Sub seq =>
      (fix loop (seq : list item) : list entry :=
         match seq with
         | [] => []
         | it :: rest =>
             match it with
             | Sub _ => walk_group it (level + 1) ++ loop rest
             | Dest title target _ =>
                 let e := mk_entry level title target in
                 match rest with
                 | (Sub _ as nxt) :: rest' =>
                     e :: walk_group nxt (level + 1) ++ loop rest'
                 | _ => e :: loop rest
                 end
             end
         end) seq
  end.

Definition walk_outline (seq : list item) (level : Z) : list entry :=
  walk_group (Sub seq) level.

(** [extract_bookmarks], on the value of [reader.outline]. *)
Definition extract_bookmarks (outlines : item) : list entry :=
  match outlines with
  | Sub seq => walk_outline seq 1
  | Dest title target _ => [mk_entry 1 title target]
  end.

(** Helpers of the reasoning principle for the walk. *)
Definition starts_with_sub (seq : list item) : bool :=
  match seq with
  | Sub _ :: _ => true
  | _ => false
  end.

Fixpoint item_size (it : item) : nat :=
  match it with
  | Dest _ _ cs => S (list_sum (map item_size cs))
  | Sub g => S (list_sum (map item_size g))
  end.

Definition seq_size (seq : list item) : nat := list_sum (map item_size seq).

(** ** Page layout (ReportLab canvas)

    Lengths are in points.  The model takes them as exact rationals; none
    of the properties proved below depends on the outcome of a particular
    comparison, so they are insensitive to rounding. *)

(** [str(n)] for an integer. *)
Definition str_of_Z (n : Z) : pystr := py (NilZero.string_of_int (Z.to_int n)).

Inductive font : Type := Helvetica | Helvetica_Bold.

(** [pdfmetrics.stringWidth(s, fontname, fontsize)]: the font tables are
    ReportLab's, so the metric is a parameter.  The only fact used is that
    the full stop has a positive advance, which makes the division in the
    dot leader defined. *)
Class FontMetrics : Type := {
  stringWidth : pystr -> font -> Z -> Q;
  dot_width_pos : (0 < stringWidth (py ".") Helvetica 12)%Q
}.

Definition Qltb (x y : Q) : bool := negb (Qle_bool y x).

(** [reportlab.lib.units.mm] (72 / 25.4 points) and [pagesizes.A4]. *)
Definition mm : Q := 360 # 127.
Definition A4 : Q * Q := (210 * mm, 297 * mm)%Q.

(** A canvas: the pages already shown and the drawing operations of the
    page being filled. *)
Inductive op : Type :=
| SetFont (f : font) (size : Z)
| DrawString (x y : Q) (s : pystr).

Abbreviation page := (list op).

Record Canvas : Type := mkCanvas { shown : list page; current : page }.

Definition new_canvas : Canvas := mkCanvas [] [].

Definition setFont (c : Canvas) (f : font) (size : Z) : Canvas :=
  mkCanvas (shown c) (current c ++ [SetFont f size]).

Definition drawString (c : Canvas) (x y : Q) (s : pystr) : Canvas :=
  mkCanvas (shown c) (current c ++ [DrawString x y s]).

Definition showPage (c : Canvas) : Canvas :=
  mkCanvas (shown c ++ [current c]) [].

(** [Canvas.save()] closes the page being filled when it has content. *)
Definition save (c : Canvas) : list page :=
  match current c with
  | [] => shown c
  | _ => shown c ++ [current c]
  end.

Definition ellipsis : pystr := [8230%N].

Definition caption : pystr := py "Inhaltsverzeichnis (aus PDF-Lesezeichen)".

Section Layout.
Context {metrics : FontMetrics}.
Local Open Scope Q_scope.

Definition width : Q := A4.1.
Definition height : Q := A4.2.
Definition left : Q := 25 * mm.
Definition right : Q := 25 * mm.
Definition top : Q := height - 25 * mm.
Definition bottom : Q := 20 * mm.
Definition page_col_x : Q := width - right.
Definition line_h : Q := 7 * mm.

Definition str_width (s : pystr) (fontname : font) (fontsize : Z) : Q :=
  stringWidth s fontname fontsize.

(** [header()]: draws the two header lines, returns the first line's [y]. *)
Definition header (doc_title : pystr) (c : Canvas) : Canvas * Q :=
  let y := top in
  let c := setFont c Helvetica_Bold 18 in
  let c := drawString c left y doc_title in
  let y := y - 20 * mm in
  let c := setFont c Helvetica 11 in
  let c := drawString c left y caption in
  let y := y - 10 * mm in
  (c, y).

(** [while str_width(t, ...) > max_text_width and len(t) > 6: t = t[:-2]].
    Each turn removes two characters, so [length title] turns are enough
    (see [shrink_spec]). *)
Fixpoint shrink (fuel : nat) (fontname : font) (fontsize : Z)
    (max_text_width : Q) (t : pystr) : pystr :=
  match fuel with
  | O => t
  | S fuel' =>
      if Qltb max_text_width (str_width t fontname fontsize)
         && (6 <? length t)%nat
      then shrink fuel' fontname fontsize max_text_width
             (take (length t - 2) t)
      else t
  end.

(** The title as drawn: truncated, and marked when it was truncated. *)
Definition truncate_title (fontname : font) (fontsize : Z)
    (max_text_width : Q) (title : pystr) : pystr :=
  let t := shrink (length title) fontname fontsize max_text_width title in
  if decide (t = title) then t else rstrip t ++ ellipsis.

Definition x_text_of (level : Z) : Q :=
  let indent := inject_Z (level - 1) * 8 * mm in
  left + indent.

Definition font_of (level : Z) : font :=
  if (level =? 1)%Z then Helvetica_Bold else Helvetica.

Definition max_text_width_of (level : Z) : Q :=
  (page_col_x - 12 * mm) - x_text_of level.

(** [int(x)]: truncation towards zero. *)
Definition int_of_Q (x : Q) : Z := Z.quot (Qnum x) (Zpos (Qden x)).

(** The body of the [for] loop after the page-break test. *)
Definition draw_line (c : Canvas) (y : Q) (e : entry) : Canvas :=
  let '(level, title, page) := e in
  let x_text := x_text_of level in
  let fontname := font_of level in
  let fontsize := 12%Z in
  let c := setFont c fontname fontsize in
  let page_str := match page with None => [] | Some p => str_of_Z p end in
  let pw := str_width page_str Helvetica 12 in
  let max_text_width := max_text_width_of level in
  let t := truncate_title fontname fontsize max_text_width title in
  let c := drawString c x_text y t in
  let c := setFont c Helvetica 12 in
  let dot_char := py "." in
  let dot_w := str_width dot_char Helvetica 12 in
  let start := x_text + str_width t fontname fontsize + 4 in
  let end_ := page_col_x - pw - 6 in
  let c :=
    if Qltb (start + dot_w) end_
    then let n := int_of_Q ((end_ - start) / dot_w) in
         drawString c start y (str_mul dot_char n)
    else c in
  let c := setFont c Helvetica 12 in
  let c := drawString c (page_col_x - pw) y page_str in
  c.

(** One turn of [for level, title, page in items]. *)
Definition draw_item (doc_title : pystr) (st : Canvas * Q) (e : entry)
    : Canvas * Q :=
  let '(c, y) := st in
  let '(c, y) :=
    if Qltb y (bottom + line_h) then header doc_title (showPage c)
    else (c, y) in
  let c := draw_line c y e in
  (c, y - line_h).

(** [draw_toc_pdf]: the pages written to [out_pdf]. *)
Definition draw_toc_pdf (doc_title : pystr) (items : list entry) : list page :=
  let st := header doc_title new_canvas in
  let st := fold_left (draw_item doc_title) items st in
  save st.1.

(** *** The layout, entry by entry

    What a page holds, stated on entries: the operations that one entry
    contributes, the operations of a header, and the division of the
    entries over the pages. *)

Definition line_ops (y : Q) (e : entry) : list op :=
  current (draw_line new_canvas y e).

Definition header_ops (doc_title : pystr) : list op :=
  current (header doc_title new_canvas).1.

Definition header_y : Q := top - 20 * mm - 10 * mm.

(** Entries with the height at which each is drawn, page by page; [cur]
    is the page being filled and [y] the cursor. *)
Fixpoint paginate (y : Q) (cur : list (entry * Q)) (items : list entry)
    : list (list (entry * Q)) :=
  match items with
  | [] => [cur]
  | e :: rest =>
      if Qltb y (bottom + line_h)
      then cur :: paginate (header_y - line_h) [(e, header_y)] rest
      else paginate (y - line_h) (cur ++ [(e, y)]) rest
  end.

Definition page_entries (items : list entry) : list (list (entry * Q)) :=
  paginate header_y [] items.

Definition render_page (doc_title : pystr) (lines : list (entry * Q)) : page :=
  header_ops doc_title ++ flat_map (fun l => line_ops l.2 l.1) lines.

(** [str_width(s, fontname, fontsize) > max_text_width] *)
Definition too_wide (fontname : font) (fontsize : Z) (max_text_width : Q)
    (s : pystr) : bool :=
  Qltb max_text_width (str_width s fontname fontsize).

End Layout.

(** A fixed-pitch metric (every glyph advances 0.6 em), to run the layout
    on concrete input. *)
Definition fixed_pitch (s : pystr) (f : font) (size : Z) : Q :=
  (6 # 10) * inject_Z size * inject_Z (Z.of_nat (length s)).

Lemma fixed_pitch_dot : (0 < fixed_pitch (py ".") Helvetica 12)%Q.
Proof. reflexivity. Qed.

Definition fixed_pitch_metrics : FontMetrics :=
  {| stringWidth := fixed_pitch; dot_width_pos := fixed_pitch_dot |}.

(** ** Worksheets (openpyxl)

    Only columns 1 to 3 from row 2 down are read or written.  A worksheet
    is the list of its rows 2 .. [max_row]; cells below [max_row] are
    empty, and writing below [max_row] extends the sheet. *)

Inductive cell : Type := CStr (s : pystr) | CInt (n : Z).

Definition row : Type := option cell * option cell * option cell.

Definition blank : row := (None, None, None).

Abbreviation worksheet := (list row).

Definition max_row (ws : worksheet) : nat := S (length ws).

(** [ws.cell(r, c).value] for [c] in 1..3 *)
Definition get_row (ws : worksheet) (r : nat) : row :=
  default blank (ws !! (r - 2)%nat).

Definition col (c : nat) (v : row) : option cell :=
  match c with
  | 1%nat => v.1.1
  | 2%nat => v.1.2
  | _ => v.2
  end.

Definition cell_value (ws : worksheet) (r c : nat) : option cell :=
  col c (get_row ws r).

Definition set_col (c : nat) (x : option cell) (v : row) : row :=
  match c with
  | 1%nat => (x, v.1.2, v.2)
  | 2%nat => (v.1.1, x, v.2)
  | _ => (v.1.1, v.1.2, x)
  end.

(** The sheet after cell [(r, c)] has taken the value [x]. *)
Definition set_cell (ws : worksheet) (r c : nat) (x : option cell) : worksheet :=
  let i := (r - 2)%nat in
  if (i <? length ws)%nat
  then <[i := set_col c x (get_row ws r)]> ws
  else ws ++ replicate (i - length ws) blank ++ [set_col c x blank].

(** [for r in range(2, ws.max_row + 1): for c in range(1, 4):
       ws.cell(r, c).value = None] *)
Definition clear_demo_rows (ws : worksheet) : worksheet :=
  fold_left
    (fun ws r => fold_left (fun ws c => set_cell ws r c None) [1; 2; 3]%nat ws)
    (seq 2 (max_row ws - 1)) ws.

(** [("    " * (level - 1)) + title] *)
Definition indented (level : Z) (title : pystr) : pystr :=
  str_mul (py "    ") (level - 1) ++ title.

(** *** The value setter of a cell

    Assigning a string to [cell.value] runs openpyxl's [check_string]: the
    string is cut to 32767 characters, and [IllegalCharacterError] is raised
    when what is left holds a control character other than tab, line feed
    and carriage return (the code points 0-8, 11, 12 and 14-31).  Numbers
    and [None] are stored as they are. *)

Definition illegal_char (c : char) : bool :=
  ((c <=? 8) || (11 <=? c) && (c <=? 12) || (14 <=? c) && (c <=? 31))%N.

Definition max_cell_chars : nat := Z.to_nat 32767.

Definition check_string (s : pystr) : option pystr :=
  let s := take max_cell_chars s in
  if existsb illegal_char s then None else Some s.

(** The value that the cell holds after [cell.value = x]; [None] when the
    assignment raises. *)
Definition bind_value (x : option cell) : option (option cell) :=
  match x with
  | Some (CStr s) =>
      match check_string s with
      | Some s' => Some (Some (CStr s'))
      | None => None
      end
  | _ => Some x
  end.

(** [ws.cell(r, c).value = x]; [None] when it raises. *)
Definition assign_cell (ws : worksheet) (r c : nat) (x : option cell)
    : option worksheet :=
  match bind_value x with
  | Some v => Some (set_cell ws r c v)
  | None => None
  end.

(** The loop of [write_toc_excel] over [items], from row [row]; [None] when
    an assignment raises. *)
Fixpoint write_items (ws : worksheet) (row : nat) (doc_title : pystr)
    (items : list entry) : option worksheet :=
  match items with
  | [] => Some ws
  | (level, title, page) :: rest =>
      ws ← assign_cell ws row 1 (Some (CStr doc_title));
      ws ← assign_cell ws row 2 (Some (CStr (indented level title)));
      ws ← assign_cell ws row 3
             (match page with Some p => Some (CInt p) | None => None end);
      write_items ws (row + 1) doc_title rest
  end.

(** What [write_toc_excel] does to the workbook loaded from the copy of the
    template; [None] when an assignment raises. *)
Definition fill_sheet (ws : worksheet) (doc_title : pystr) (items : list entry)
    : option worksheet :=
  let ws := clear_demo_rows ws in
  write_items ws 2 doc_title items.

(** ** The master ledger *)

(** A row handed to [append_master]:
    [(doc_title, indented title, page | None)]. *)
Definition ledger_row : Type := pystr * pystr * option Z.

(** The triple of cell values such a tuple is compared with and stored as. *)
Definition cells_of (v : ledger_row) : row :=
  (Some (CStr v.1.1), Some (CStr v.1.2),
   match v.2 with Some p => Some (CInt p) | None => None end).

Global Instance cell_eq_dec : EqDecision cell.
Proof. solve_decision. Defined.

Global Instance cell_countable : Countable cell :=
  inj_countable'
    (fun c => match c with CStr s => inl s | CInt n => inr n end)
    (fun s => match s with inl s => CStr s | inr n => CInt n end)
    (fun c => match c with CStr _ => eq_refl | CInt _ => eq_refl end).

Definition is_blank (v : row) : bool :=
  match v with
  | (None, None, None) => true
  | _ => false
  end.

(** The [existing] set of [append_master]: the triples of rows 2 ..
    [max_row] that are not entirely empty ([set()] when [dedupe] is off). *)
Definition existing_of (dedupe : bool) (ws : worksheet) : gset row :=
  if dedupe
  then fold_left
         (fun existing r =>
            let v := get_row ws r in
            if is_blank v then existing else existing ∪ {[ v ]})
         (seq 2 (max_row ws - 1)) ∅
  else ∅.

(** [any(ws.cell(r, c).value is not None for c in (1, 2, 3))] *)
Definition row_has_value (ws : worksheet) (r : nat) : bool :=
  existsb (fun c => bool_decide (cell_value ws r c <> None)) [1; 2; 3]%nat.

(** The scan for the first empty row, with its cut-off. *)
Fixpoint first_empty_from (fuel : nat) (ws : worksheet) (r : nat) : nat :=
  match fuel with
  | O => r
  | S fuel' =>
      if row_has_value ws r
      then let r := (r + 1)%nat in
           if (Z.of_nat (max_row ws) + 20000 <? Z.of_nat r)%Z then r
           else first_empty_from fuel' ws r
      else r
  end.

(** At most every row of the sheet has a value, so [max_row] turns are
    enough (see [first_empty_row_spec]). *)
Definition first_empty_row (ws : worksheet) : nat :=
  first_empty_from (max_row ws) ws 2.

(** [for rowvals in rows: ...], from row [r].  The strings that [run_batch]
    hands over are those that [write_toc_excel] has assigned to cells of
    the document's own sheet before, so the value setter has accepted them;
    the cells take the values of the tuple (strings of at most 32767
    characters, which the setter does not cut). *)
Fixpoint append_rows (ws : worksheet) (existing : gset row) (dedupe : bool)
    (r : nat) (rows : list ledger_row) : worksheet :=
  match rows with
  | [] => ws
  | rowvals :: rest =>
      if dedupe && bool_decide (cells_of rowvals ∈ existing)
      then append_rows ws existing dedupe r rest
      else
        let ws := set_cell ws r 1 (cells_of rowvals).1.1 in
        let ws := set_cell ws r 2 (cells_of rowvals).1.2 in
        let ws := set_cell ws r 3 (cells_of rowvals).2 in
        append_rows ws existing dedupe (r + 1) rest
  end.

(** What [append_master] does to the loaded ledger. *)
Definition merge_rows (ws : worksheet) (rows : list ledger_row) (dedupe : bool)
    : worksheet :=
  let existing := existing_of dedupe ws in
  let r := first_empty_row ws in
  append_rows ws existing dedupe r rows.

(** The number of rows of a ledger that hold data. *)
Definition row_count (ws : worksheet) : nat :=
  length (filter (fun v => is_blank v = false) ws).

(** ** Files and exceptions

    The batch works on the files of the output folder and on the template.
    A step either returns or raises; what it had written before raising
    stays written.

    A workbook file is the sheet that was saved.  Loading it does not give
    every value back: an empty string was stored as an empty cell and is
    read as [None], and what becomes of other values (a carriage return, a
    very large number) depends on the installation.  [reload] is the value
    that a cell saved with a value is read with; only the fate of the empty
    string is fixed. *)

Inductive file : Type :=
| PdfFile (pages : list page)
| Workbook (ws : worksheet)
| OtherFile.

Abbreviation files := (gmap pystr file).

Class Workbooks : Type := {
  reload : cell -> option cell;
  reload_empty : reload (CStr []) = None
}.

Definition reload_row {workbooks : Workbooks} (v : row) : row :=
  (v.1.1 ≫= reload, v.1.2 ≫= reload, v.2 ≫= reload).

Definition reload_sheet {workbooks : Workbooks} (ws : worksheet) : worksheet :=
  map reload_row ws.

(** An installation that reads every other value as it was saved. *)
Definition plain_reload (c : cell) : option cell :=
  match c with
  | CStr [] => None
  | _ => Some c
  end.

Definition plain_workbooks : Workbooks :=
  {| reload := plain_reload; reload_empty := eq_refl |}.

Definition M (A : Type) : Type := files -> option A * files.

Definition ret {A} (a : A) : M A := fun fs => (Some a, fs).

Definition raise {A} : M A := fun fs => (None, fs).

Definition bind {A B} (m : M A) (k : A -> M B) : M B :=
  fun fs =>
    match m fs with
    | (Some a, fs') => k a fs'
    | (None, fs') => (None, fs')
    end.

Notation "x <- m ;; k" := (bind m (fun x => k))
  (at level 100, m at next level, right associativity).
Notation "m ;;; k" := (bind m (fun _ => k))
  (at level 100, right associativity).

(** [path.exists()] *)
Definition path_exists (p : pystr) : M bool :=
  fun fs => (Some (bool_decide (is_Some (fs !! p))), fs).

(** [shutil.copy(src, dst)]: raises when [src] is absent
    ([FileNotFoundError]) and when [src] and [dst] are the same file
    ([SameFileError]). *)
Definition shutil_copy (src dst : pystr) : M unit :=
  fun fs =>
    match fs !! src with
    | Some f => if decide (src = dst) then (None, fs)
                else (Some tt, <[dst := f]> fs)
    | None => (None, fs)
    end.

(** [openpyxl.load_workbook(p)] followed by [wb.active]: raises unless [p]
    is a workbook; the values of the saved sheet are read as [reload]
    gives them. *)
Definition load_workbook {workbooks : Workbooks} (p : pystr) : M worksheet :=
  fun fs =>
    match fs !! p with
    | Some (Workbook ws) => (Some (reload_sheet ws), fs)
    | _ => (None, fs)
    end.

(** [wb.save(p)] *)
Definition wb_save (p : pystr) (ws : worksheet) : M unit :=
  fun fs => (Some tt, <[p := Workbook ws]> fs).

(** [c.save()] of the canvas opened on [p]. *)
Definition canvas_save (p : pystr) (pages : list page) : M unit :=
  fun fs => (Some tt, <[p := PdfFile pages]> fs).

(** A source document as [PdfReader] sees it: the stem of its path and its
    outline, [None] when opening the file or reading the outline raises. *)
Record pdf : Type := mkPdf { stem : pystr; outline : option item }.

Record RunConfig : Type := mkRunConfig {
  input_dir : pystr;
  output_dir : pystr;
  template_xlsx : pystr;
  master_name : pystr;
  recursive : bool;
  dedupe_master : bool
}.

Definition default_master_name : pystr := py "MASTER_Inhaltsverzeichnis.xlsx".

(** [dir / name] *)
Definition path_join (dir name : pystr) : pystr := dir ++ py "/" ++ name.

(** [int(page) if page else None]: page 0 counts as no page. *)
Definition master_page (page : option Z) : option Z :=
  match page with
  | Some p => if (p =? 0)%Z then None else Some p
  | None => None
  end.

(** The rows one document adds to [master_rows]. *)
Definition master_rows_of (doc_title : pystr) (items : list entry)
    : list ledger_row :=
  map (fun e : entry =>
         (doc_title, indented (level_of e) (title_of e), master_page (page_of e)))
      items.

Section Batch.
Context {metrics : FontMetrics} {workbooks : Workbooks}.

(** [write_toc_excel] *)
Definition write_toc_excel (out_xlsx template : pystr) (doc_title : pystr)
    (items : list entry) : M unit :=
  shutil_copy template out_xlsx ;;;
  ws <- load_workbook out_xlsx ;;
  match fill_sheet ws doc_title items with
  | Some ws => wb_save out_xlsx ws
  | None => raise
  end.

(** [draw_toc_pdf], writing its pages to [out_pdf]. *)
Definition write_toc_pdf (out_pdf doc_title : pystr) (items : list entry)
    : M unit :=
  canvas_save out_pdf (draw_toc_pdf doc_title items).

(** [append_master] *)
Definition append_master (master_path template : pystr)
    (rows : list ledger_row) (dedupe : bool) : M unit :=
  present <- path_exists master_path ;;
  (if negb present
   then shutil_copy template master_path ;;;
        ws <- load_workbook master_path ;;
        wb_save master_path (clear_demo_rows ws)
   else ret tt) ;;;
  ws <- load_workbook master_path ;;
  wb_save master_path (merge_rows ws rows dedupe).

Definition out_pdf_path (cfg : RunConfig) (doc_title : pystr) : pystr :=
  path_join (output_dir cfg) (doc_title ++ py "_Inhaltsverzeichnis.pdf").

Definition out_xlsx_path (cfg : RunConfig) (doc_title : pystr) : pystr :=
  path_join (output_dir cfg) (doc_title ++ py "_Inhaltsverzeichnis.xlsx").

Definition master_path (cfg : RunConfig) : pystr :=
  path_join (output_dir cfg) (master_name cfg).

(** The body of the [try] block for one document.  It returns the rows the
    document adds to [master_rows], or [None] when the document is skipped
    ([continue]). *)
Definition process_pdf (cfg : RunConfig) (pdf_path : pdf)
    : M (option (list ledger_row)) :=
  items <- match outline pdf_path with
           | Some o => ret (extract_bookmarks o)
           | None => raise
           end ;;
  match items with
  | [] => ret None
  | _ =>
      let doc_title := stem pdf_path in
      let out_pdf := out_pdf_path cfg doc_title in
      let out_xlsx := out_xlsx_path cfg doc_title in
      write_toc_pdf out_pdf doc_title items ;;;
      write_toc_excel out_xlsx (template_xlsx cfg) doc_title items ;;;
      ret (Some (master_rows_of doc_title items))
  end.

(** State of the loop over the documents. *)
Record batch_state : Type := mkBatch {
  master_rows : list ledger_row;
  ok : Z;
  err : Z;
  disk : files
}.

(** One turn of [for pdf_path in iter_pdfs(...)], with its
    [try ... except Exception: err += 1]. *)
Definition batch_step (cfg : RunConfig) (st : batch_state) (pdf_path : pdf)
    : batch_state :=
  match process_pdf cfg pdf_path (disk st) with
  | (Some (Some rows), fs) =>
      mkBatch (master_rows st ++ rows) (ok st + 1) (err st) fs
  | (Some None, fs) => mkBatch (master_rows st) (ok st) (err st) fs
  | (None, fs) => mkBatch (master_rows st) (ok st) (err st + 1) fs
  end.

(** [run_batch]; [pdfs] is what [iter_pdfs(cfg.input_dir, cfg.recursive)]
    yields, and the output folder is taken to exist after [mkdir].  The call
    of [append_master] is outside the [try]: when it raises, so does
    [run_batch]. *)
Definition run_batch (cfg : RunConfig) (pdfs : list pdf) : M (Z * Z) :=
  fun fs =>
    let st := fold_left (batch_step cfg) pdfs (mkBatch [] 0 0 fs) in
    (match master_rows st with
     | [] => ret tt
     | _ => append_master (master_path cfg) (template_xlsx cfg)
              (master_rows st) (dedupe_master cfg)
     end ;;;
     ret (ok st, err st)) (disk st).

(** *** The window *)

Record App : Type := mkApp {
  app_template_xlsx : pystr;
  var_input : pystr;
  var_output : pystr;
  var_recursive : bool;
  var_dedupe : bool
}.

Inductive dialog : Type :=
| showerror (title message : pystr)
| showinfo (title message : pystr).

Definition is_error (d : dialog) : bool :=
  match d with
  | showerror _ _ => true
  | showinfo _ _ => false
  end.

Definition newline : pystr := [10%N].

(** [App.on_start]: the dialogs it opens.  [iter_pdfs] lists the
    documents of a folder. *)
Definition on_start (iter_pdfs : pystr -> bool -> list pdf) (self : App)
    : M (list dialog) :=
  let inp := strip (var_input self) in
  let out := strip (var_output self) in
  match inp, out with
  | [], _ | _, [] =>
      ret [showerror (py "Fehlt was")
             (py "Bitte Eingabe- und Ausgabeordner w" ++ [228%N] ++ py "hlen.")]
  | _, _ =>
      present <- path_exists (app_template_xlsx self) ;;
      if negb present
      then ret [showerror (py "Template fehlt")
                  (py "Template nicht gefunden: " ++ app_template_xlsx self)]
      else
        let cfg := mkRunConfig inp out (app_template_xlsx self)
                     default_master_name (var_recursive self)
                     (var_dedupe self) in
        res <- run_batch cfg (iter_pdfs (input_dir cfg) (recursive cfg)) ;;
        ret [showinfo (py "Fertig")
               (py "Erzeugt: " ++ str_of_Z res.1 ++ py " Inhaltsverzeichnisse"
                ++ newline ++ py "Fehler: " ++ str_of_Z res.2
                ++ newline ++ py "Master: " ++ master_path cfg)]
  end.

End Batch.

(** ** Vocabulary of the statements *)

(** No whitespace at either end. *)
Definition trimmed (t : pystr) : Prop :=
  (forall c, head t = Some c -> is_space c = false)
  /\ (forall c, last t = Some c -> is_space c = false).

(** The nodes that the nested lists of an outline hold, in reading order:
    raw title and raw target.  Child-list attributes are not followed. *)
Fixpoint listed_item (it : item) : list (pystr * option Z) :=
  match it with
  | Dest title target _ => [(title, target)]
  | Sub g => flat_map listed_item g
  end.

Definition listed (seq : list item) : list (pystr * option Z) :=
  flat_map listed_item seq.

(** All nodes of an outline, child-list attributes included. *)
Fixpoint all_nodes_item (it : item) : list (pystr * option Z) :=
  match it with
  | Dest title target cs => (title, target) :: flat_map all_nodes_item cs
  | Sub g => flat_map all_nodes_item g
  end.

(** No node of the outline carries children in its attribute. *)
Fixpoint no_attr_children (it : item) : bool :=
  match it with
  | Dest _ _ cs => match cs with [] => true | _ => false end
  | Sub g => forallb no_attr_children g
  end.

(** An outline as a forest, and its two encodings: the child list as the
    sibling that follows the parent, and the child list as an attribute of
    the parent. *)
#[warnings="-register-all"] Inductive tree : Type :=
| Node (title : pystr) (target : option Z) (children : list tree).

Fixpoint preorder (level : Z) (t : tree) : list entry :=
  match t with
  | Node title target children =>
      mk_entry level title target :: flat_map (preorder (level + 1)) children
  end.

Definition preorder_forest (level : Z) (f : list tree) : list entry :=
  flat_map (preorder level) f.

Fixpoint sibling_enc (t : tree) : list item :=
  match t with
  | Node title target children =>
      Dest title target []
        :: match children with
           | [] => []
           | _ => [Sub (flat_map sibling_enc children)]
           end
  end.

Definition sibling_forest (f : list tree) : list item := flat_map sibling_enc f.

Fixpoint attr_enc (t : tree) : item :=
  match t with
  | Node title target children => Dest title target (map attr_enc children)
  end.

Definition attr_forest (f : list tree) : list item := map attr_enc f.

(** No list of the outline, the outline itself included, has a list as its
    first item. *)
Fixpoint no_list_first (it : item) : bool :=
  match it with
  | Dest _ _ _ => true
  | Sub g => negb (starts_with_sub g) && forallb no_list_first g
  end.

(** Each level is at most one more than the level before it; [prev] is the
    level before the first. *)
Fixpoint steps_up_by_one (prev : Z) (levels : list Z) : Prop :=
  match levels with
  | [] => True
  | l :: rest => l <= prev + 1 /\ steps_up_by_one l rest
  end.

(** [t] is [raw] without the whitespace at its two ends: [raw] is [t]
    between two runs of whitespace, and [t] neither starts nor ends with
    whitespace. *)
Definition stripped_of (raw t : pystr) : Prop :=
  trimmed t
  /\ exists pre post,
       raw = pre ++ t ++ post
       /\ Forall (fun c => is_space c = true) pre
       /\ Forall (fun c => is_space c = true) post.

(** The raw nodes that [extract_bookmarks] reads: those of the nested
    lists, or the outline itself when it is no list. *)
Definition raw_nodes (outlines : item) : list (pystr * option Z) :=
  match outlines with
  | Sub seq => listed seq
  | Dest title target _ => [(title, target)]
  end.

(** What an entry says apart from its level, and what the flattener makes of
    a raw node. *)
Definition content (e : entry) : pystr * option Z := (title_of e, page_of e).

Definition cooked (n : pystr * option Z) : pystr * option Z :=
  (strip n.1, page_num n.2).

(** Outlines used as examples: a parent with one child, in the attribute
    and in the sibling representation, and a node followed by a list nested
    in a list. *)
Definition parent_child : list tree :=
  [Node (py "Parent") (Some 0) [Node (py "Child") (Some 1) []]].

Definition doubly_nested : item :=
  Sub [Dest (py "A") (Some 0) []; Sub [Sub [Dest (py "B") (Some 1) []]]].

(** A node followed by two lists in a row, an empty list and a node. *)
Definition lists_in_a_row : item :=
  Sub [Dest (py "A") (Some 0) [];
       Sub [Dest (py "B") (Some 1) []];
       Sub [Dest (py "C") (Some 2) []];
       Sub [];
       Dest (py "D") (Some 3) []].

(** The three assignments that fill row [r]. *)
Definition set_row (ws : worksheet) (r : nat) (v : row) : worksheet :=
  set_cell (set_cell (set_cell ws r 1 v.1.1) r 2 v.1.2) r 3 v.2.

(** The row that [write_toc_excel] writes for an entry. *)
Definition sheet_row (doc_title : pystr) (e : entry) : row :=
  (Some (CStr doc_title),
   Some (CStr (indented (level_of e) (title_of e))),
   match page_of e with Some p => Some (CInt p) | None => None end).

(** The value setter accepts a string: after the cut to 32767 characters
    it holds no illegal character. *)
Definition accepted (s : pystr) : bool :=
  negb (existsb illegal_char (take max_cell_chars s)).

(** The strings that [write_toc_excel] assigns for an entry are accepted;
    for all entries of a document. *)
Definition entry_accepted (doc_title : pystr) (e : entry) : bool :=
  accepted doc_title && accepted (indented (level_of e) (title_of e)).

Definition items_accepted (doc_title : pystr) (items : list entry) : bool :=
  forallb (entry_accepted doc_title) items.

(** The row of the sheet after the three assignments for an entry, when
    the setter accepts its strings. *)
Definition stored_row (doc_title : pystr) (e : entry) : row :=
  (Some (CStr (take max_cell_chars doc_title)),
   Some (CStr (take max_cell_chars (indented (level_of e) (title_of e)))),
   match page_of e with Some p => Some (CInt p) | None => None end).

(** A title that the setter rejects: [A], the control character 1, [B]. *)
Definition control_title : pystr := [65%N; 1%N; 66%N].

(** The entries of the end-to-end example, and a template with one demo row. *)
Definition example_items : list entry :=
  [(1, py "Intro", Some 1); (2, py "Background", Some 2);
   (1, py "Methods", Some 5)].

Definition example_template : worksheet :=
  [(Some (CStr (py "Demo")), Some (CStr (py "Demo title")), Some (CInt 7));
   blank].

(** The rows of a batch that a merge with dedupe writes into ledger [ws]:
    those whose triple is not the triple of a row of [ws]. *)
Definition kept_rows (ws : worksheet) (rows : list ledger_row) : list ledger_row :=
  filter (fun v => cells_of v ∉ ws) rows.

(** The rows that a merge writes, with or without dedupe. *)
Definition written_rows (dedupe : bool) (ws : worksheet)
    (rows : list ledger_row) : list ledger_row :=
  if dedupe then kept_rows ws rows else rows.

(** A ledger without gaps: no row with data below an empty row.  A ledger
    that the tool created and extended has none. *)
Fixpoint gap_free (ws : worksheet) : bool :=
  match ws with
  | [] => true
  | v :: rest => if is_blank v then forallb is_blank rest else gap_free rest
  end.

(** ** Vocabulary of the batch statements *)

(** The ledger of a run is absent, or not a workbook, or has no gaps when
    it is loaded. *)
Definition ledger_gap_free {workbooks : Workbooks} (cfg : RunConfig) (fs : files) : bool :=
  match fs !! master_path cfg with
  | Some (Workbook ws) => gap_free (reload_sheet ws)
  | _ => true
  end.

Definition ledger_row_count (cfg : RunConfig) (fs : files) : nat :=
  match fs !! master_path cfg with
  | Some (Workbook ws) => row_count ws
  | _ => 0%nat
  end.

(** The rows a document adds to [master_rows], given the template file:
    none unless its outline can be read, the template is a workbook and the
    sheet accepts its strings. *)
Definition contributed_rows (p : pdf) (template : option file) : list ledger_row :=
  match outline p, template with
  | Some o, Some (Workbook _) =>
      if items_accepted (stem p) (extract_bookmarks o)
      then master_rows_of (stem p) (extract_bookmarks o)
      else []
  | _, _ => []
  end.

(** The ledger file after [append_master], given the ledger file and the
    template file before; nothing happens for an empty batch. *)
Definition merged_master {workbooks : Workbooks} (dedupe : bool) (rows : list ledger_row)
    (master template : option file) : option file :=
  match rows with
  | [] => master
  | _ =>
      match master with
      | Some (Workbook ws) =>
          Some (Workbook (merge_rows (reload_sheet ws) rows dedupe))
      | Some f => Some f
      | None =>
          match template with
          | Some (Workbook tws) =>
              Some (Workbook
                      (merge_rows (clear_demo_rows (reload_sheet tws)) rows dedupe))
          | Some f => Some f
          | None => None
          end
      end
  end.

(** A configuration, a document with an outline and two worlds for the
    examples: one with a usable template, one whose template is not a
    workbook. *)
Definition example_cfg : RunConfig :=
  mkRunConfig (py "in") (py "out") (py "T.xlsx") default_master_name false true.

Definition example_pdf : pdf :=
  mkPdf (py "Doc")
    (Some (Sub [Dest (py "Intro") (Some 0) [];
                Sub [Dest (py "Background") (Some 1) []];
                Dest (py "Methods") (Some 4) []])).

Definition example_files : files := {[ py "T.xlsx" := Workbook example_template ]}.

(** A document with a bookmark whose title is only whitespace. *)
Definition blank_title_pdf : pdf :=
  mkPdf (py "Doc")
    (Some (Sub [Dest (py "Intro") (Some 0) [];
                Dest (py "   ") (Some 1) []])).

Definition broken_template_files : files := {[ py "T.xlsx" := OtherFile ]}.

(** A window whose folders are chosen, for the examples. *)
Definition example_app : App :=
  mkApp (py "T.xlsx") (py " in ") (py "out") false true.

(** ** Vocabulary of the further properties *)

(** The entries of an item when every node gets the level of the call plus
    the number of lists around it. *)
Fixpoint leveled_item (level : Z) (it : item) : list entry :=
  match it with
  | Dest title target _ => [mk_entry level title target]
  | Sub g => flat_map (leveled_item (level + 1)) g
  end.

(** How deep the lists of an item nest: 0 for a node. *)
Fixpoint nesting (it : item) : Z :=
  match it with
  | Dest _ _ _ => 0
  | Sub g => 1 + fold_right (fun x acc => Z.max (nesting x) acc) 0 g
  end.

(** The height of line number [k] (counted from 0) of a page. *)
Definition line_y (k : nat) : Q :=
  (header_y - inject_Z (Z.of_nat k) * line_h)%Q.

Section LeaderVocabulary.
Context {metrics : FontMetrics}.
Local Open Scope Q_scope.

(** The page number as [draw_toc_pdf] prints it. *)
Definition page_str_of (page : option Z) : pystr :=
  match page with None => [] | Some p => str_of_Z p end.

(** The title as drawn for an entry of level [level]. *)
Definition drawn_title (level : Z) (title : pystr) : pystr :=
  truncate_title (font_of level) 12 (max_text_width_of level) title.

(** [start], [end] and [dot_w] of the dot leader. *)
Definition leader_start (level : Z) (title : pystr) : Q :=
  x_text_of level + str_width (drawn_title level title) (font_of level) 12 + 4.

Definition leader_end (page : option Z) : Q :=
  page_col_x - str_width (page_str_of page) Helvetica 12 - 6.

Definition dot_w : Q := str_width (py ".") Helvetica 12.

(** The operations of a line around its leader. *)
Definition line_with_leader (y : Q) (level : Z) (title : pystr)
    (page : option Z) (leader : list op) : list op :=
  [SetFont (font_of level) 12;
   DrawString (x_text_of level) y (drawn_title level title);
   SetFont Helvetica 12]
  ++ leader
  ++ [SetFont Helvetica 12;
      DrawString (page_col_x - str_width (page_str_of page) Helvetica 12) y
        (page_str_of page)].

(** The dot leader of an entry drawn at height [y]: nothing unless the gap
    between title and page number is wider than one dot. *)
Definition leader_ops (y : Q) (level : Z) (title : pystr) (page : option Z)
    : list op :=
  if Qltb (leader_start level title + dot_w) (leader_end page)
  then [DrawString (leader_start level title) y
          (str_mul (py ".")
             (int_of_Q ((leader_end page - leader_start level title) / dot_w)))]
  else [].

(** The drawing of an entry at height [y]: its title at the indentation of
    its level, the dot leader, and its page number ending at the page
    column, all at the same height. *)
Definition entry_drawing (y : Q) (e : entry) : list op :=
  line_with_leader y (level_of e) (title_of e) (page_of e)
    (leader_ops y (level_of e) (title_of e) (page_of e)).

(** The two lines that head every page. *)
Definition header_drawing (doc_title : pystr) : list op :=
  [SetFont Helvetica_Bold 18;
   DrawString left top doc_title;
   SetFont Helvetica 11;
   DrawString left (top - 20 * mm) caption].

(** A page: the header and then the drawings of its entries, each at its
    height. *)
Definition page_drawing (doc_title : pystr) (lines : list (entry * Q)) : page :=
  header_drawing doc_title ++ flat_map (fun l => entry_drawing l.2 l.1) lines.

End LeaderVocabulary.

(** A document that [run_batch] skips: its outline can be read and has no
    entry. *)
Definition skipped (p : pdf) : bool :=
  match outline p with
  | Some o => match extract_bookmarks o with [] => true | _ => false end
  | None => false
  end.

(** A document whose outline can be read and has entries. *)
Definition has_entries (p : pdf) : bool :=
  match outline p with
  | Some o => match extract_bookmarks o with [] => false | _ => true end
  | None => false
  end.

(** A document that cannot be opened, or whose outline cannot be read. *)
Definition unreadable (p : pdf) : bool :=
  match outline p with
  | Some _ => false
  | None => true
  end.

(** The template is not the ledger, and neither is an output of a document
    of the batch. *)
Definition batch_paths_ok (cfg : RunConfig) (pdfs : list pdf) : Prop :=
  template_xlsx cfg <> master_path cfg
  /\ Forall (fun p =>
               template_xlsx cfg <> out_pdf_path cfg (stem p)
               /\ template_xlsx cfg <> out_xlsx_path cfg (stem p)
               /\ master_path cfg <> out_pdf_path cfg (stem p)
               /\ master_path cfg <> out_xlsx_path cfg (stem p)) pdfs.

(** The rows of all documents of a batch, in the order of the batch, given
    the template file. *)
Definition batch_rows (pdfs : list pdf) (template : option file)
    : list ledger_row :=
  flat_map (fun p => contributed_rows p template) pdfs.

(** The sheet accepts the strings of a document (of every document whose
    outline cannot be read: it has none). *)
Definition sheet_accepts (p : pdf) : bool :=
  match outline p with
  | Some o => items_accepted (stem p) (extract_bookmarks o)
  | None => true
  end.

(** A cell stores the string as it is: the setter accepts it and does not
    cut it. *)
Definition kept_as_is (s : pystr) : bool :=
  bool_decide (check_string s = Some s).

(** Every string that the sheet and the ledger get from a document is
    stored as it is. *)
Definition pdf_plain (p : pdf) : bool :=
  match outline p with
  | Some o =>
      forallb (fun e => kept_as_is (stem p)
                        && kept_as_is (indented (level_of e) (title_of e)))
        (extract_bookmarks o)
  | None => true
  end.

(** The ledger rows of the documents of a batch that can be read. *)
Definition readable_rows (pdfs : list pdf) : list ledger_row :=
  flat_map (fun p => match outline p with
                     | Some o => master_rows_of (stem p) (extract_bookmarks o)
                     | None => []
                     end) pdfs.

(** A second document for the examples, without outline entries, and one
    that cannot be read. *)
Definition empty_pdf : pdf := mkPdf (py "Empty") (Some (Sub [])).

Definition unreadable_pdf : pdf := mkPdf (py "Broken") None.

(** A batch of three documents for the examples: one with an outline, one
    without entries and one that cannot be read. *)
Definition example_batch : list pdf := [example_pdf; empty_pdf; unreadable_pdf].

(** The defining equations of [walk_outline], one per path of the loop body. *)
Lemma walk_outline_nil level : walk_outline [] level = [].
Proof. reflexivity. Qed.

Lemma walk_outline_sub g rest level :
  walk_outline (Sub g :: rest) level
  = walk_outline g (level + 1) ++ walk_outline rest level.
Proof. reflexivity. Qed.

Lemma walk_outline_dest_sub title target cs g rest level :
  walk_outline (Dest title target cs :: Sub g :: rest) level
  = mk_entry level title target
      :: walk_outline g (level + 1) ++ walk_outline rest level.
Proof. reflexivity. Qed.

Lemma walk_outline_dest_dest title target cs title' target' cs' rest level :
  walk_outline (Dest title target cs :: Dest title' target' cs' :: rest) level
  = mk_entry level title target
      :: walk_outline (Dest title' target' cs' :: rest) level.
Proof. reflexivity. Qed.

Lemma walk_outline_dest_last title target cs level :
  walk_outline [Dest title target cs] level = [mk_entry level title target].
Proof. reflexivity. Qed.

Example walk_example :
  extract_bookmarks
    (Sub [Dest (py " Intro ") (Some 0) [];
          Sub [Dest (py "Background") (Some 1) []];
          Dest (py "Methods") None []])
  = [(1, py "Intro", Some 1); (2, py "Background", Some 2); (1, py "Methods", None)].
Proof. reflexivity. Qed.

(** ** Reasoning principle for the walk

    Induction that follows the four paths of the loop body. *)

Lemma walk_outline_dest title target cs rest level :
  starts_with_sub rest = false ->
  walk_outline (Dest title target cs :: rest) level
  = mk_entry level title target :: walk_outline rest level.
Proof. destruct rest as [|[]]; [reflexivity..|discriminate]. Qed.

Lemma walk_ind (P : list item -> Prop) :
  P [] ->
  (forall g rest, P g -> P rest -> P (Sub g :: rest)) ->
  (forall title target cs g rest,
      P g -> P rest -> P (Dest title target cs :: Sub g :: rest)) ->
  (forall title target cs rest,
      starts_with_sub rest = false -> P rest ->
      P (Dest title target cs :: rest)) ->
  forall seq, P seq.
Proof.
  intros Hnil Hsub Hpair Hdest seq.
  remember (seq_size seq) as n eqn:Hn.
  revert seq Hn. induction n as [n IH] using lt_wf_ind. intros seq Hn.
  destruct seq as [|[title target cs|g] rest]; [exact Hnil| |].
  - destruct rest as [|[title' target' cs'|g] rest'].
    + apply Hdest; [reflexivity|exact Hnil].
    + apply Hdest; [reflexivity|].
      eapply IH; [|reflexivity]. subst n. unfold seq_size. simpl. lia.
    + apply Hpair; (eapply IH; [|reflexivity]); subst n; unfold seq_size; simpl; lia.
  - apply Hsub; (eapply IH; [|reflexivity]); subst n; unfold seq_size; simpl; lia.
Qed.

Ltac split_conj := repeat match goal with |- _ /\ _ => split end.

(** ** Text *)

Lemma lstrip_suffix s : exists k, lstrip s = drop k s.
Proof.
  induction s as [|c r [k IH]]; [by exists 0%nat|].
  simpl. destruct (is_space c); [by exists (S k)|by exists 0%nat].
Qed.

Lemma lstrip_head s c : head (lstrip s) = Some c -> is_space c = false.
Proof.
  induction s as [|a r IH]; [done|]. simpl.
  destruct (is_space a) eqn:Ha; [exact IH|]. simpl. by intros [= <-].
Qed.

Lemma lstrip_fixed s : (forall c, head s = Some c -> is_space c = false) -> lstrip s = s.
Proof. destruct s as [|a r]; [done|]. simpl. intros Hs. by rewrite (Hs a). Qed.

Lemma last_drop {A} (l : list A) k x : last (drop k l) = Some x -> last l = Some x.
Proof.
  revert k. induction l as [|a l IH]; intros k; [by rewrite drop_nil|].
  destruct k as [|k]; [done|]. simpl. intros Hl. apply IH in Hl.
  destruct l; [done|]. exact Hl.
Qed.

Lemma last_rev_head {A} (l : list A) : last (rev l) = head l.
Proof.
  destruct l as [|a l]; [done|]. simpl. by rewrite last_snoc.
Qed.

Lemma head_rev_last {A} (l : list A) : head (rev l) = last l.
Proof. by rewrite <- (last_rev_head (rev l)), rev_involutive. Qed.

Lemma rstrip_last s c : last (rstrip s) = Some c -> is_space c = false.
Proof.
  unfold rstrip. rewrite last_rev_head. apply lstrip_head.
Qed.

Lemma strip_trimmed s : trimmed (strip s).
Proof.
  split; unfold strip.
  - apply lstrip_head.
  - intros c Hc. destruct (lstrip_suffix (rstrip s)) as [k Hk].
    rewrite Hk in Hc. apply last_drop in Hc. by apply rstrip_last in Hc.
Qed.

Lemma trimmed_strip t : trimmed t -> strip t = t.
Proof.
  intros [Hh Hl]. unfold strip, rstrip.
  rewrite (lstrip_fixed (rev t)).
  - rewrite rev_involutive. by apply lstrip_fixed.
  - intros c. rewrite head_rev_last. apply Hl.
Qed.

(** ** The flattener *)

Lemma listed_cons it rest : listed (it :: rest) = listed_item it ++ listed rest.
Proof. reflexivity. Qed.

Lemma walk_content seq : forall level,
  map content (walk_outline seq level) = map cooked (listed seq).
Proof.
  induction seq as [|g rest IHg IHrest|title target cs g rest IHg IHrest
                   |title target cs rest Hrest IHrest] using walk_ind;
    intros level.
  - reflexivity.
  - rewrite walk_outline_sub, listed_cons, !map_app, IHg, IHrest. reflexivity.
  - rewrite walk_outline_dest_sub, !listed_cons. simpl.
    rewrite !map_app, IHg, IHrest. reflexivity.
  - rewrite walk_outline_dest by exact Hrest. rewrite listed_cons. simpl.
    rewrite IHrest. reflexivity.
Qed.

Lemma walk_levels_ge seq : forall level,
  Forall (fun e => level <= level_of e) (walk_outline seq level).
Proof.
  induction seq as [|g rest IHg IHrest|title target cs g rest IHg IHrest
                   |title target cs rest Hrest IHrest] using walk_ind;
    intros level.
  - constructor.
  - rewrite walk_outline_sub. apply Forall_app. split; [|apply IHrest].
    eapply Forall_impl; [apply IHg|]. simpl. intros; lia.
  - rewrite walk_outline_dest_sub. constructor; [unfold level_of, mk_entry; simpl; lia|].
    apply Forall_app. split; [|apply IHrest].
    eapply Forall_impl; [apply IHg|]. simpl. intros; lia.
  - rewrite walk_outline_dest by exact Hrest.
    constructor; [unfold level_of, mk_entry; simpl; lia|apply IHrest].
Qed.

Lemma walk_direct_nodes seq : forall level title target cs,
  Dest title target cs ∈ seq ->
  mk_entry level title target ∈ walk_outline seq level.
Proof.
  induction seq as [|g rest IHg IHrest|title' target' cs' g rest IHg IHrest
                   |title' target' cs' rest Hrest IHrest] using walk_ind;
    intros level title target cs Hin.
  - by apply elem_of_nil in Hin.
  - rewrite walk_outline_sub. apply elem_of_app. right.
    apply elem_of_cons in Hin as [Hin|Hin]; [discriminate|]. by eapply IHrest.
  - rewrite walk_outline_dest_sub.
    apply elem_of_cons in Hin as [Hin|Hin].
    + injection Hin as -> -> ->. apply elem_of_cons. by left.
    + apply elem_of_cons in Hin as [Hin|Hin]; [discriminate|].
      apply elem_of_cons. right. apply elem_of_app. right. by eapply IHrest.
  - rewrite walk_outline_dest by exact Hrest.
    apply elem_of_cons in Hin as [Hin|Hin].
    + injection Hin as -> -> ->. apply elem_of_cons. by left.
    + apply elem_of_cons. right. by eapply IHrest.
Qed.

Lemma tree_rect' (P : tree -> Prop) :
  (forall title target children,
      Forall P children -> P (Node title target children)) ->
  forall t, P t.
Proof.
  intros step. fix IH 1. intros [title target children]. apply step.
  induction children as [|c children IHc]; constructor; [apply IH|exact IHc].
Qed.

Lemma sibling_forest_starts_with_node f : starts_with_sub (sibling_forest f) = false.
Proof. destruct f as [|[title target children] f]; reflexivity. Qed.

Lemma walk_sibling_enc t : forall rest level,
  starts_with_sub rest = false ->
  walk_outline (sibling_enc t ++ rest) level
  = preorder level t ++ walk_outline rest level.
Proof.
  induction t as [title target children IH] using tree_rect'.
  intros rest level Hrest.
  assert (Hchildren : forall lvl,
             walk_outline (flat_map sibling_enc children) lvl
             = flat_map (preorder lvl) children).
  { intros lvl. induction IH as [|c children Hc _ IHchildren]; [reflexivity|].
    simpl. rewrite Hc by apply sibling_forest_starts_with_node.
    by rewrite IHchildren. }
  destruct children as [|c children].
  - simpl. by rewrite walk_outline_dest.
  - change (sibling_enc (Node title target (c :: children)) ++ rest)
      with (Dest title target []
              :: Sub (flat_map sibling_enc (c :: children)) :: rest).
    rewrite walk_outline_dest_sub, Hchildren. reflexivity.
Qed.

Lemma walk_sibling_forest f level :
  walk_outline (sibling_forest f) level = preorder_forest level f.
Proof.
  induction f as [|t f IH]; [reflexivity|].
  change (sibling_forest (t :: f)) with (sibling_enc t ++ sibling_forest f).
  rewrite walk_sibling_enc by apply sibling_forest_starts_with_node.
  by rewrite IH.
Qed.

Lemma listed_all_nodes it :
  no_attr_children it = true -> listed_item it = all_nodes_item it.
Proof.
  remember (item_size it) as n eqn:Hn. revert it Hn.
  induction n as [n IH] using lt_wf_ind. intros [title target cs|g] Hn Hno.
  - simpl in Hno. destruct cs; [reflexivity|discriminate].
  - simpl in Hno |- *. subst n.
    assert (Hall : Forall (fun it => listed_item it = all_nodes_item it) g).
    { apply Forall_forall. intros it Hin.
      apply (IH (item_size it)); [|reflexivity|].
      - clear -Hin. induction Hin as [it g|it a g _ IHin]; simpl in *; lia.
      - rewrite forallb_forall in Hno. by apply Hno, list_elem_of_In. }
    clear -Hall. induction Hall as [|it g Hit _ IHg]; [reflexivity|].
    simpl. by rewrite Hit, IHg.
Qed.

(** *** Levels *)

Lemma steps_up_weaken prev prev' levels :
  prev <= prev' -> steps_up_by_one prev levels -> steps_up_by_one prev' levels.
Proof. destruct levels; simpl; [done|]. intros ? [? ?]. split; [lia|done]. Qed.

(** The walk of the items [seq] of a list at level [level], after an entry
    of level [prev] and before the levels [k].  An entry of the list itself
    came before unless [seq] is the whole list, and then [seq] does not
    start with a list. *)
Lemma walk_steps seq : forall level prev k,
  forallb no_list_first seq = true ->
  level <= prev + 1 ->
  (starts_with_sub seq = true -> level <= prev) ->
  steps_up_by_one (Z.min prev level) k ->
  steps_up_by_one prev (map level_of (walk_outline seq level) ++ k).
Proof.
  induction seq as [|g rest IHg IHrest|title target cs g rest IHg IHrest
                   |title target cs rest Hrest IHrest] using walk_ind;
    intros level prev k Hp Hprev Hsub Hk.
  - eapply steps_up_weaken; [|exact Hk]. lia.
  - specialize (Hsub eq_refl).
    cbn [forallb no_list_first] in Hp.
    apply andb_prop in Hp as [Hg Hr]. apply andb_prop in Hg as [Hg1 Hg2].
    apply negb_true_iff in Hg1.
    rewrite walk_outline_sub, map_app, <- app_assoc.
    apply IHg; [exact Hg2|lia|congruence|].
    apply IHrest; [exact Hr|lia|lia|].
    eapply steps_up_weaken; [|exact Hk]. lia.
  - cbn [forallb no_list_first] in Hp.
    apply andb_prop in Hp as [_ Hp]. apply andb_prop in Hp as [Hg Hr].
    apply andb_prop in Hg as [Hg1 Hg2]. apply negb_true_iff in Hg1.
    rewrite walk_outline_dest_sub. simpl. split; [exact Hprev|].
    rewrite map_app, <- app_assoc.
    unfold level_of at 1, mk_entry at 1; simpl.
    apply IHg; [exact Hg2|lia|congruence|].
    apply IHrest; [exact Hr|lia|lia|].
    eapply steps_up_weaken; [|exact Hk]. lia.
  - cbn [forallb no_list_first] in Hp. apply andb_prop in Hp as [_ Hr].
    rewrite walk_outline_dest by exact Hrest. simpl. split; [exact Hprev|].
    unfold level_of at 1, mk_entry at 1; simpl.
    apply IHrest; [exact Hr|lia|lia|].
    eapply steps_up_weaken; [|exact Hk]. lia.
Qed.

Lemma steps_up_lookup levels : forall prev i a b,
  steps_up_by_one prev levels ->
  levels !! i = Some a -> levels !! S i = Some b -> b <= a + 1.
Proof.
  induction levels as [|l levels IH]; intros prev i a b Hs Ha Hb; [done|].
  destruct Hs as [_ Hs]. destruct i as [|i].
  - injection Ha as ->. destruct levels as [|l' levels]; [done|].
    injection Hb as ->. by destruct Hs.
  - by eapply IH.
Qed.

Lemma extract_steps outlines :
  no_list_first outlines = true ->
  steps_up_by_one 0 (map level_of (extract_bookmarks outlines)).
Proof.
  destruct outlines as [title target cs|seq]; intros Hp.
  - simpl. unfold level_of, mk_entry. simpl. lia.
  - cbn [no_list_first] in Hp. apply andb_prop in Hp as [Hs Hp].
    apply negb_true_iff in Hs.
    simpl. rewrite <- (app_nil_r (map _ _)).
    apply walk_steps; [exact Hp|lia|congruence|done].
Qed.

Lemma extract_levels_ge outlines :
  Forall (fun e => 1 <= level_of e) (extract_bookmarks outlines).
Proof.
  destruct outlines as [title target cs|seq]; simpl.
  - constructor; [unfold level_of, mk_entry; simpl; lia|constructor].
  - apply walk_levels_ge.
Qed.

(** C1 (as amended).  For every outline given as a list, the flattener
    returns each node held by the nested lists exactly once and in reading
    order (depth-first, pre-order), with the nodes that are direct elements
    of the root list at level 1; these are all the nodes of the outline when
    no node keeps children in an attribute.  The result is empty exactly
    when the lists hold no node.  An outline that is a single node and not a
    list yields one entry at level 1.  For a forest written in the sibling
    representation the result is the forest's pre-order with the depth as
    level.  Children kept in a node's own child-list attribute are not
    visited. *)
Theorem extract_bookmarks_preorder (seq : list item) :
  map content (extract_bookmarks (Sub seq)) = map cooked (listed seq)
  /\ (forall title target cs,
         Dest title target cs ∈ seq ->
         mk_entry 1 title target ∈ extract_bookmarks (Sub seq))
  /\ (no_attr_children (Sub seq) = true ->
      map content (extract_bookmarks (Sub seq))
      = map cooked (all_nodes_item (Sub seq)))
  /\ (extract_bookmarks (Sub seq) = [] <-> listed seq = [])
  /\ (forall title target cs,
         extract_bookmarks (Dest title target cs) = [mk_entry 1 title target])
  /\ (forall f, seq = sibling_forest f ->
         extract_bookmarks (Sub seq) = preorder_forest 1 f).
Proof.
  repeat split.
  - apply walk_content.
  - intros title target cs. apply walk_direct_nodes.
  - intros Hno. simpl. rewrite walk_content.
    f_equal. exact (listed_all_nodes (Sub seq) Hno).
  - intros Hnil. pose proof (walk_content seq 1) as Hc. simpl in Hnil.
    rewrite Hnil in Hc. simpl in Hc. symmetry in Hc.
    by apply map_eq_nil in Hc.
  - intros Hnil. pose proof (walk_content seq 1) as Hc.
    rewrite Hnil in Hc. by apply map_eq_nil in Hc.
  - intros f ->. apply walk_sibling_forest.
Qed.

Lemma extract_bookmarks_preorder_witness :
  extract_bookmarks (Sub (sibling_forest parent_child))
  = [(1, py "Parent", Some 1); (2, py "Child", Some 2)].
Proof.
  rewrite (proj2 (proj2 (proj2 (proj2 (proj2
             (extract_bookmarks_preorder (sibling_forest parent_child))))))
             parent_child eq_refl).
  reflexivity.
Defined.

(** C1, as stated, fails for the attribute representation: the child of a
    node that keeps its children in its child-list attribute is dropped. *)
Lemma attr_children_dropped :
  extract_bookmarks (Sub (attr_forest parent_child)) = [(1, py "Parent", Some 1)]
  /\ preorder_forest 1 parent_child
     = [(1, py "Parent", Some 1); (2, py "Child", Some 2)]
  /\ extract_bookmarks (Sub (attr_forest parent_child))
     <> preorder_forest 1 parent_child
  /\ (length (extract_bookmarks (Sub (attr_forest parent_child)))
      < length (all_nodes_item (Sub (attr_forest parent_child))))%nat.
Proof. repeat split; [discriminate|simpl; lia]. Qed.

(** C7 (as amended).  For every outline in which no list, the outline
    itself included, has a list as its first item, the first entry has
    level 1 and the level of each further entry is at most one more than the
    level of the entry before it (it may be any amount less). *)
Theorem levels_step_by_one (outlines : item) :
  no_list_first outlines = true ->
  (forall e, head (extract_bookmarks outlines) = Some e -> level_of e = 1)
  /\ (forall i e e',
         extract_bookmarks outlines !! i = Some e ->
         extract_bookmarks outlines !! S i = Some e' ->
         level_of e' <= level_of e + 1).
Proof.
  intros Hp. pose proof (extract_steps outlines Hp) as Hs.
  pose proof (extract_levels_ge outlines) as Hge. split.
  - intros e He. destruct (extract_bookmarks outlines) as [|e0 out]; [done|].
    injection He as ->. apply Forall_cons in Hge as [Hge _].
    destruct Hs as [Hs _]. simpl in Hs. lia.
  - intros i e e' He He'.
    eapply (steps_up_lookup _ 0 i); [exact Hs| |].
    + by rewrite list_lookup_fmap, He.
    + by rewrite list_lookup_fmap, He'.
Qed.

Lemma levels_step_by_one_witness :
  no_list_first lists_in_a_row = true
  /\ map level_of (extract_bookmarks lists_in_a_row) = [1; 2; 2; 1]
  /\ (forall e, head (extract_bookmarks lists_in_a_row) = Some e -> level_of e = 1)
  /\ (forall i e e',
        extract_bookmarks lists_in_a_row !! i = Some e ->
        extract_bookmarks lists_in_a_row !! S i = Some e' ->
        level_of e' <= level_of e + 1).
Proof.
  split; [reflexivity|]. split; [reflexivity|].
  apply (levels_step_by_one lists_in_a_row). reflexivity.
Defined.

(** C7, as stated, fails for a list nested directly in a list: the entry
    after a level-1 entry has level 3. *)
Lemma nested_list_jumps_two_levels :
  map level_of (extract_bookmarks doubly_nested) = [1; 3]
  /\ ~ steps_up_by_one 0 (map level_of (extract_bookmarks doubly_nested)).
Proof.
  split; [reflexivity|]. simpl. unfold level_of, mk_entry. simpl. lia.
Qed.

(** ** Page layout *)

Section LayoutFacts.
Context {metrics : FontMetrics}.

Lemma header_spec doc_title c :
  header doc_title c
  = (mkCanvas (shown c) (current c ++ header_ops doc_title), header_y).
Proof.
  unfold header, header_ops, header_y, setFont, drawString. simpl.
  by repeat rewrite <- app_assoc.
Qed.

Lemma draw_line_spec c y e :
  draw_line c y e = mkCanvas (shown c) (current c ++ line_ops y e).
Proof.
  destruct e as [[level title] pg].
  unfold line_ops, draw_line, setFont, drawString.
  destruct (Qltb _ _); simpl; by repeat rewrite <- app_assoc.
Qed.

Lemma render_page_snoc doc_title lines e y :
  render_page doc_title lines ++ line_ops y e
  = render_page doc_title (lines ++ [(e, y)]).
Proof.
  unfold render_page. rewrite flat_map_app, <- app_assoc.
  do 2 f_equal. simpl. by rewrite app_nil_r.
Qed.

Lemma render_page_single doc_title e y :
  header_ops doc_title ++ line_ops y e = render_page doc_title [(e, y)].
Proof. unfold render_page. simpl. by rewrite app_nil_r. Qed.

Lemma draw_item_spec doc_title sh cur y e :
  draw_item doc_title (mkCanvas sh (render_page doc_title cur), y) e
  = if Qltb y (bottom + line_h)
    then (mkCanvas (sh ++ [render_page doc_title cur])
            (render_page doc_title [(e, header_y)]),
          (header_y - line_h)%Q)
    else (mkCanvas sh (render_page doc_title (cur ++ [(e, y)])),
          (y - line_h)%Q).
Proof.
  unfold draw_item. destruct (Qltb y (bottom + line_h)).
  - rewrite header_spec, draw_line_spec. unfold showPage.
    cbn [shown current app]. by rewrite render_page_single.
  - rewrite draw_line_spec. cbn [shown current].
    by rewrite render_page_snoc.
Qed.

(** The loop invariant: the page being filled is the rendering of the
    entries placed on it so far. *)
Lemma draw_items_pages doc_title items : forall sh cur y,
  save (fold_left (draw_item doc_title) items
          (mkCanvas sh (render_page doc_title cur), y)).1
  = sh ++ map (render_page doc_title) (paginate y cur items).
Proof.
  induction items as [|e items IH]; intros sh cur y.
  - reflexivity.
  - cbn [fold_left paginate]. rewrite draw_item_spec.
    destruct (Qltb y (bottom + line_h)); rewrite IH; [|reflexivity].
    by rewrite <- app_assoc.
Qed.

Lemma paginate_concat items : forall y cur,
  concat (map (map fst) (paginate y cur items)) = map fst cur ++ items.
Proof.
  induction items as [|e items IH]; intros y cur; simpl.
  - by rewrite !app_nil_r.
  - destruct (Qltb y (bottom + line_h)); simpl; rewrite IH.
    + reflexivity.
    + rewrite map_app. simpl. by rewrite <- app_assoc.
Qed.

Lemma line_ops_leader (y : Q) (level : Z) (title : pystr) (pg : option Z) :
  line_ops y (level, title, pg)
  = line_with_leader y level title pg
      (if Qltb (leader_start level title + dot_w) (leader_end pg)
       then [DrawString (leader_start level title) y
               (str_mul (py ".")
                  (int_of_Q ((leader_end pg - leader_start level title)
                             / dot_w)))]
       else []).
Proof.
  unfold line_ops, draw_line, line_with_leader, setFont, drawString.
  fold (page_str_of pg). fold (drawn_title level title).
  fold (leader_start level title). fold (leader_end pg). fold dot_w.
  by destruct (Qltb _ _).
Qed.

Lemma line_ops_drawing (y : Q) (e : entry) : line_ops y e = entry_drawing y e.
Proof. destruct e as [[level title] pg]. apply line_ops_leader. Qed.

Lemma header_ops_drawing doc_title : header_ops doc_title = header_drawing doc_title.
Proof. reflexivity. Qed.

Lemma render_page_drawing doc_title lines :
  render_page doc_title lines = page_drawing doc_title lines.
Proof.
  unfold render_page, page_drawing. rewrite header_ops_drawing. f_equal.
  induction lines as [|l lines IH]; [reflexivity|].
  cbn [flat_map]. by rewrite line_ops_drawing, IH.
Qed.

Lemma draw_toc_pdf_render doc_title items :
  draw_toc_pdf doc_title items
  = map (render_page doc_title) (page_entries items).
Proof.
  unfold draw_toc_pdf, page_entries. rewrite header_spec.
  cbn [shown current app new_canvas].
  assert (Hr : header_ops doc_title = render_page doc_title [])
    by (unfold render_page; simpl; by rewrite ?app_nil_r).
  rewrite Hr. apply (draw_items_pages doc_title items [] [] header_y).
Qed.

(** C2.  The pages that [draw_toc_pdf] writes are, page by page, the two
    header lines followed by the drawings of the entries of one run of
    consecutive entries: for each entry its title, its dot leader and its
    page number, at one height.  The runs, concatenated, are the input
    sequence.  So every entry is drawn exactly once, in input order, and on
    one page. *)
Theorem draw_toc_pdf_places_each_entry_once (doc_title : pystr)
    (items : list entry) :
  draw_toc_pdf doc_title items
  = map (fun lines : list (entry * Q) =>
           [SetFont Helvetica_Bold 18;
            DrawString left top doc_title;
            SetFont Helvetica 11;
            DrawString left (top - 20 * mm) caption]
           ++ flat_map
                (fun l : entry * Q =>
                   [SetFont (font_of (level_of l.1)) 12;
                    DrawString (x_text_of (level_of l.1)) l.2
                      (drawn_title (level_of l.1) (title_of l.1));
                    SetFont Helvetica 12]
                   ++ leader_ops l.2 (level_of l.1) (title_of l.1) (page_of l.1)
                   ++ [SetFont Helvetica 12;
                       DrawString
                         (page_col_x
                          - str_width (page_str_of (page_of l.1)) Helvetica 12)
                         l.2 (page_str_of (page_of l.1))])
                lines)
        (page_entries items)
  /\ concat (map (map fst) (page_entries items)) = items.
Proof.
  split.
  - rewrite draw_toc_pdf_render. apply map_ext. intros lines.
    apply render_page_drawing.
  - unfold page_entries. by rewrite paginate_concat.
Qed.

(** *** Truncation of titles *)

Lemma shrink_spec fontname fontsize maxw fuel : forall t,
  (length t <= fuel)%nat ->
  let r := shrink fuel fontname fontsize maxw t in
  too_wide fontname fontsize maxw r && (6 <? length r)%nat = false
  /\ r = take (length r) t
  /\ (r = t \/ (5 <= length r /\ length r + 2 <= length t
                /\ too_wide fontname fontsize maxw t = true
                /\ 6 < length t)%nat)
  /\ Nat.Even (length t - length r)
  /\ (forall j, (length r < j <= length t)%nat ->
                Nat.Even (length t - j) ->
                too_wide fontname fontsize maxw (take j t) = true).
Proof.
  induction fuel as [|fuel IH]; intros t Hlen; cbn zeta.
  - destruct t; [|simpl in Hlen; lia]. simpl.
    split_conj; [apply andb_false_r|done|by left|by exists 0%nat|simpl; lia].
  - cbn [shrink]. fold (too_wide fontname fontsize maxw t).
    destruct (too_wide fontname fontsize maxw t && (6 <? length t)%nat)
      eqn:Hcond.
    + apply andb_prop in Hcond as [Hwide Hlong].
      apply Nat.ltb_lt in Hlong.
      set (t' := take (length t - 2) t).
      assert (Hlen' : length t' = (length t - 2)%nat)
        by (unfold t'; rewrite length_take; lia).
      destruct (IH t' ltac:(lia)) as (Hexit & Hpre & Hcase & Heven & Hall).
      set (r := shrink fuel fontname fontsize maxw t') in *.
      assert (Hr : (length r <= length t')%nat).
      { rewrite Hpre, length_take. lia. }
      split_conj.
      * exact Hexit.
      * rewrite Hpre at 1. unfold t'. rewrite take_take. f_equal. lia.
      * right. destruct Hcase as [->|?]; split_conj; try exact Hwide; lia.
      * destruct Heven as [k Hk]. exists (S k). lia.
      * intros j Hj [k Hk].
        destruct (decide (j = length t)) as [->|Hne].
        { by rewrite firstn_all. }
        assert (take j t = take j t') as ->
          by (unfold t'; rewrite take_take; f_equal; lia).
        apply Hall; [lia|]. exists (k - 1)%nat. lia.
    + split_conj.
      * exact Hcond.
      * by rewrite firstn_all.
      * by left.
      * exists 0%nat. lia.
      * intros j Hj. lia.
Qed.

Lemma truncate_title_verbatim fontname fontsize maxw title :
  too_wide fontname fontsize maxw title = false \/ (length title <= 6)%nat ->
  truncate_title fontname fontsize maxw title = title.
Proof.
  intros Hfit. unfold truncate_title.
  assert (Hs : shrink (length title) fontname fontsize maxw title = title).
  { destruct (shrink_spec fontname fontsize maxw (length title) title
                ltac:(lia)) as (_ & _ & [Heq|Hcut] & _); [exact Heq|].
    destruct Hcut as (_ & _ & Hwide & Hlong).
    destruct Hfit as [Hfit|Hshort]; [congruence|lia]. }
  rewrite Hs. by destruct (decide (title = title)).
Qed.

Lemma truncate_title_cut fontname fontsize maxw title :
  too_wide fontname fontsize maxw title = true ->
  (6 < length title)%nat ->
  exists kept,
    truncate_title fontname fontsize maxw title = rstrip kept ++ ellipsis
    /\ kept = take (length kept) title
    /\ (5 <= length kept)%nat
    /\ (length kept + 2 <= length title)%nat
    /\ Nat.Even (length title - length kept)
    /\ (too_wide fontname fontsize maxw kept = false
        \/ (length kept <= 6)%nat)
    /\ (forall j, (length kept < j <= length title)%nat ->
                  Nat.Even (length title - j) ->
                  too_wide fontname fontsize maxw (take j title) = true).
Proof.
  intros Hwide Hlong. unfold truncate_title.
  destruct (shrink_spec fontname fontsize maxw (length title) title
              ltac:(lia)) as (Hexit & Hpre & Hcase & Heven & Hall).
  set (kept := shrink (length title) fontname fontsize maxw title) in *.
  assert (Hcut : (5 <= length kept /\ length kept + 2 <= length title)%nat).
  { destruct Hcase as [Heq|Hcut]; [|lia].
    rewrite Heq, Hwide in Hexit. simpl in Hexit.
    apply Nat.ltb_ge in Hexit. lia. }
  exists kept. destruct (decide (kept = title)) as [Heq|_].
  { rewrite Heq in Hcut. lia. }
  split_conj; try done; try lia.
  apply andb_false_iff in Hexit as [Hfit|Hshort]; [by left|right].
  apply Nat.ltb_ge in Hshort. lia.
Qed.

Lemma length_lstrip s : (length (lstrip s) <= length s)%nat.
Proof. destruct (lstrip_suffix s) as [k ->]. rewrite length_drop. lia. Qed.

Lemma length_rstrip s : (length (rstrip s) <= length s)%nat.
Proof.
  unfold rstrip. rewrite length_rev.
  etrans; [apply length_lstrip|]. by rewrite length_rev.
Qed.

Lemma drawn_title_in_line y level title pg :
  DrawString (x_text_of level) y
    (truncate_title (font_of level) 12 (max_text_width_of level) title)
  ∈ line_ops y (level, title, pg).
Proof.
  unfold line_ops, draw_line, setFont, drawString.
  destruct (Qltb _ _); cbn [current app];
    apply elem_of_cons; right; apply elem_of_cons; by left.
Qed.

(** C3 (as amended).  The title that [draw_toc_pdf] draws for an entry is
    the input, verbatim, when its measured width fits the column or when
    it has at most 6 characters.  Otherwise it is a prefix of the input,
    shorter by an even number of characters (at least two) and cut at the
    first such prefix that fits or has at most 6 characters, with its
    trailing whitespace removed and an ellipsis appended: the prefix kept
    has at least 5 characters, it fits the column unless the cut stopped
    at the length limit, and the drawn title is strictly shorter than the
    input and ends in the ellipsis. *)
Theorem truncate_title_spec (level : Z) (title : pystr) (pg : option Z)
    (y : Q) :
  let fontname := font_of level in
  let maxw := max_text_width_of level in
  let t := truncate_title fontname 12 maxw title in
  DrawString (x_text_of level) y t ∈ line_ops y (level, title, pg)
  /\ (too_wide fontname 12 maxw title = false \/ (length title <= 6)%nat ->
      t = title)
  /\ (too_wide fontname 12 maxw title = true -> (6 < length title)%nat ->
      exists kept,
        t = rstrip kept ++ ellipsis
        /\ kept = take (length kept) title
        /\ (5 <= length kept)%nat
        /\ (length kept + 2 <= length title)%nat
        /\ Nat.Even (length title - length kept)
        /\ (too_wide fontname 12 maxw kept = false
            \/ (length kept <= 6)%nat)
        /\ (forall j, (length kept < j <= length title)%nat ->
                      Nat.Even (length title - j) ->
                      too_wide fontname 12 maxw (take j title) = true)
        /\ (length t < length title)%nat
        /\ last t = Some 8230%N).
Proof.
  cbn zeta. split_conj.
  - apply drawn_title_in_line.
  - apply truncate_title_verbatim.
  - intros Hwide Hlong.
    destruct (truncate_title_cut _ 12 _ _ Hwide Hlong)
      as (kept & Ht & Hpre & H5 & H2 & Heven & Hfit & Hall).
    exists kept. rewrite Ht. split_conj; try done.
    + rewrite length_app. pose proof (length_rstrip kept). simpl. lia.
    + unfold ellipsis. by rewrite last_snoc.
Qed.

(** From level 20 on the column has negative width, so that no title
    fits, whatever the (non-negative) metric. *)
Lemma deep_level_too_wide level s fontname fontsize :
  (forall s f z, 0 <= stringWidth s f z)%Q ->
  20 <= level ->
  too_wide fontname fontsize (max_text_width_of level) s = true.
Proof.
  intros Hpos Hlevel. unfold too_wide, Qltb, str_width.
  apply negb_true_iff. apply not_true_iff_false. intros Hle.
  apply Qle_bool_iff in Hle.
  assert (Hneg : (max_text_width_of level < 0)%Q).
  { unfold max_text_width_of, x_text_of, page_col_x, left, right, width, A4,
      mm, Qlt. simpl. lia. }
  specialize (Hpos s fontname fontsize).
  apply (Qlt_irrefl 0). eapply Qle_lt_trans; [|exact Hneg].
  eapply Qle_trans; [exact Hpos|exact Hle].
Qed.

End LayoutFacts.

Lemma truncate_title_spec_witness :
  let t := truncate_title (metrics := fixed_pitch_metrics) Helvetica 12
             (max_text_width_of 2) (py "Background") in
  too_wide (metrics := fixed_pitch_metrics) Helvetica 12
    (max_text_width_of 2) (py "Background") = false
  /\ t = py "Background".
Proof.
  split; [reflexivity|].
  apply (proj1 (proj2 (truncate_title_spec (metrics := fixed_pitch_metrics)
                         2 (py "Background") None 0))).
  left. reflexivity.
Defined.

(** C3, as stated, fails where the column is narrower than any title (level
    20): a title of at most 6 characters is too wide and yet drawn verbatim,
    without ellipsis; a longer one is cut to 6 characters, which still do
    not fit. *)
Lemma too_wide_title_kept_or_still_too_wide :
  let wide := too_wide (metrics := fixed_pitch_metrics) Helvetica 12
                (max_text_width_of 20) in
  let drawn := truncate_title (metrics := fixed_pitch_metrics) Helvetica 12
                 (max_text_width_of 20) in
  font_of 20 = Helvetica
  /\ wide (py "Intro") = true
  /\ drawn (py "Intro") = py "Intro"
  /\ wide (py "Introduction") = true
  /\ drawn (py "Introduction") = py "Introd" ++ ellipsis
  /\ wide (py "Introd") = true.
Proof. cbn zeta. split_conj; vm_compute; reflexivity. Qed.

(** ** Worksheets *)

Lemma get_row_set_cell ws r c x :
  get_row (set_cell ws r c x) r = set_col c x (get_row ws r).
Proof.
  unfold set_cell, get_row. cbv zeta.
  destruct (Nat.ltb_spec (r - 2) (length ws)) as [Hlt|Hge].
  - by rewrite list_lookup_insert_eq.
  - rewrite (lookup_ge_None_2 ws) by lia.
    rewrite lookup_app_r by lia.
    rewrite lookup_app_r by (rewrite length_replicate; lia).
    rewrite length_replicate. by replace (_ - _ - _)%nat with 0%nat by lia.
Qed.

Lemma get_row_set_cell_ne ws r r' c x :
  (2 <= r)%nat -> (2 <= r')%nat -> r <> r' ->
  get_row (set_cell ws r c x) r' = get_row ws r'.
Proof.
  intros Hr Hr' Hne. unfold set_cell, get_row. cbv zeta.
  destruct (Nat.ltb_spec (r - 2) (length ws)) as [Hlt|Hge].
  - rewrite list_lookup_insert_ne by lia. reflexivity.
  - destruct (Nat.lt_ge_cases (r' - 2) (length ws)) as [Hlt'|Hge'].
    + by rewrite lookup_app_l.
    + rewrite (lookup_ge_None_2 ws) by lia.
      rewrite lookup_app_r by lia.
      destruct (Nat.lt_ge_cases (r' - 2 - length ws) (r - 2 - length ws)).
      * rewrite lookup_app_l by (rewrite length_replicate; lia).
        by rewrite lookup_replicate_2.
      * rewrite lookup_app_r by (rewrite length_replicate; lia).
        rewrite length_replicate.
        by rewrite lookup_ge_None_2 by (simpl; lia).
Qed.

Lemma length_set_cell ws r c x :
  (2 <= r)%nat ->
  length (set_cell ws r c x) = (length ws `max` (r - 1))%nat.
Proof.
  intros Hr. unfold set_cell. cbv zeta.
  destruct (Nat.ltb_spec (r - 2) (length ws)) as [Hlt|Hge].
  - rewrite length_insert. lia.
  - rewrite !length_app, length_replicate. simpl. lia.
Qed.

Lemma get_row_set_row ws r v : get_row (set_row ws r v) r = v.
Proof.
  unfold set_row. rewrite !get_row_set_cell. by destruct v as [[a b] c].
Qed.

Lemma get_row_set_row_ne ws r r' v :
  (2 <= r)%nat -> (2 <= r')%nat -> r <> r' ->
  get_row (set_row ws r v) r' = get_row ws r'.
Proof.
  intros. unfold set_row. by rewrite !get_row_set_cell_ne.
Qed.

Lemma get_row_beyond ws r : (length ws + 2 <= r)%nat -> get_row ws r = blank.
Proof. intros. unfold get_row. by rewrite lookup_ge_None_2 by lia. Qed.

Lemma check_string_accepted s :
  check_string s = if accepted s then Some (take max_cell_chars s) else None.
Proof. unfold check_string, accepted. cbv zeta. by destruct (existsb _ _). Qed.

Lemma write_items_cons ws r doc_title e rest :
  write_items ws r doc_title (e :: rest)
  = if entry_accepted doc_title e
    then write_items (set_row ws r (stored_row doc_title e)) (r + 1) doc_title rest
    else None.
Proof.
  destruct e as [[level title] pg]. unfold entry_accepted, stored_row.
  cbn [write_items level_of title_of page_of fst snd].
  unfold assign_cell, bind_value.
  rewrite (check_string_accepted doc_title).
  destruct (accepted doc_title); [|reflexivity].
  cbn [mbind option_bind option_ret].
  rewrite (check_string_accepted (indented level title)).
  destruct (accepted (indented level title)); [|reflexivity].
  cbn [mbind option_bind andb]. by destruct pg.
Qed.

Lemma write_items_raises doc_title items : forall ws r,
  items_accepted doc_title items = false ->
  write_items ws r doc_title items = None.
Proof.
  induction items as [|e items IH]; intros ws r Hacc; [discriminate|].
  rewrite write_items_cons. cbn [items_accepted forallb] in Hacc.
  destruct (entry_accepted doc_title e); [|reflexivity].
  by apply IH.
Qed.

Lemma write_items_rows doc_title items : forall ws r,
  (2 <= r)%nat ->
  items_accepted doc_title items = true ->
  exists ws',
    write_items ws r doc_title items = Some ws'
    /\ (forall i e, items !! i = Some e ->
          get_row ws' (r + i) = stored_row doc_title e)
    /\ (forall r', (2 <= r')%nat -> (r' < r \/ r + length items <= r')%nat ->
          get_row ws' r' = get_row ws r').
Proof.
  induction items as [|e items IH]; intros ws r Hr Hacc.
  - exists ws. split_conj; done.
  - rewrite write_items_cons. cbn [items_accepted forallb] in Hacc.
    apply andb_prop in Hacc as [-> Hacc].
    destruct (IH (set_row ws r (stored_row doc_title e)) (r + 1)%nat
                ltac:(lia) Hacc) as (ws' & Hrun & Hin & Hout).
    exists ws'. split_conj; [exact Hrun| |].
    + intros [|i] e' He'.
      * injection He' as <-. rewrite Hout by lia.
        rewrite Nat.add_0_r. apply get_row_set_row.
      * replace (r + S i)%nat with (r + 1 + i)%nat by lia. by apply Hin.
    + intros r' Hr' Hcase. simpl in Hcase.
      rewrite Hout by lia. apply get_row_set_row_ne; lia.
Qed.

Lemma clear_row_spec ws r :
  fold_left (fun ws c => set_cell ws r c None) [1; 2; 3]%nat ws
  = set_row ws r blank.
Proof. reflexivity. Qed.

Lemma clear_rows_fold rows : forall ws,
  Forall (fun r => (2 <= r)%nat) rows ->
  forall r', (2 <= r')%nat ->
    get_row (fold_left (fun ws r => set_row ws r blank) rows ws) r'
    = if bool_decide (r' ∈ rows) then blank else get_row ws r'.
Proof.
  induction rows as [|r rows IH]; intros ws Hrows r' Hr'; [done|].
  apply Forall_cons in Hrows as [Hr Hrows]. simpl.
  rewrite IH by done.
  destruct (decide (r' ∈ rows)) as [Hin|Hnin].
  - rewrite !bool_decide_eq_true_2; [done| |done]. by apply elem_of_cons; right.
  - rewrite (bool_decide_eq_false_2 (r' ∈ rows)) by done.
    destruct (decide (r' = r)) as [->|Hne].
    + rewrite bool_decide_eq_true_2 by (apply elem_of_cons; by left).
      apply get_row_set_row.
    + rewrite bool_decide_eq_false_2.
      * apply get_row_set_row_ne; [done..|congruence].
      * intros [?|?]%elem_of_cons; done.
Qed.

Lemma clear_demo_rows_blank ws r :
  (2 <= r)%nat -> get_row (clear_demo_rows ws) r = blank.
Proof.
  intros Hr. unfold clear_demo_rows.
  rewrite (clear_rows_fold (seq 2 (max_row ws - 1)) ws); [|
    apply Forall_forall; intros x Hx%elem_of_seq; lia|done].
  case_bool_decide as Hin; [done|].
  apply get_row_beyond. rewrite elem_of_seq in Hin. unfold max_row in Hin. lia.
Qed.

Lemma fill_sheet_raises ws doc_title items :
  items_accepted doc_title items = false ->
  fill_sheet ws doc_title items = None.
Proof. apply write_items_raises. Qed.

Lemma fill_sheet_rows ws doc_title items :
  items_accepted doc_title items = true ->
  exists ws',
    fill_sheet ws doc_title items = Some ws'
    /\ (forall i e, items !! i = Some e ->
          get_row ws' (2 + i) = stored_row doc_title e)
    /\ (forall r, (2 + length items <= r)%nat -> get_row ws' r = blank).
Proof.
  intros Hacc. unfold fill_sheet.
  destruct (write_items_rows doc_title items (clear_demo_rows ws) 2
              ltac:(lia) Hacc) as (ws' & Hrun & Hin & Hout).
  exists ws'. split_conj; [exact Hrun|exact Hin|].
  intros r Hr. rewrite Hout by lia. apply clear_demo_rows_blank. lia.
Qed.

Lemma str_mul_spaces n :
  str_mul (py "    ") n = replicate (4 * Z.to_nat n) 32%N.
Proof.
  unfold str_mul. induction (Z.to_nat n) as [|k IH]; [reflexivity|].
  replace (4 * S k)%nat with (4 + 4 * k)%nat by lia.
  rewrite replicate_add, <- IH. reflexivity.
Qed.

Lemma write_toc_excel_unfold {workbooks : Workbooks} (out_xlsx template doc_title : pystr)
    (items : list entry) (fs : files) (tws : worksheet) :
  fs !! template = Some (Workbook tws) ->
  template <> out_xlsx ->
  write_toc_excel out_xlsx template doc_title items fs
  = match fill_sheet (reload_sheet tws) doc_title items with
    | Some ws' => (Some tt, <[out_xlsx := Workbook ws']> fs)
    | None => (None, <[out_xlsx := Workbook tws]> fs)
    end.
Proof.
  intros HT Hne.
  unfold write_toc_excel, bind, shutil_copy, load_workbook, wb_save, raise.
  rewrite HT, decide_False by exact Hne. rewrite lookup_insert_eq.
  destruct (fill_sheet _ _ _); [|reflexivity]. by rewrite insert_insert_eq.
Qed.

(** C6 (as amended).  Let the template be a workbook and not the output
    file itself.  When the sheet accepts the document title and every
    indented title (after the cut to 32767 characters none holds a control
    character other than tab, line feed and carriage return),
    [write_toc_excel] writes, for the entry at position [i] of the input,
    row [2 + i] of the sheet: column 1 the document title, column 2 the
    entry title after four spaces for each level above 1, both cut to 32767
    characters, column 3 the page number, or nothing when the page is
    unknown; the rows after the last entry are empty: one row per entry, in
    input order.  Otherwise [write_toc_excel] raises, and the output file is
    left as the copy of the template: no row is written. *)
Theorem write_toc_excel_rows {workbooks : Workbooks} (fs : files)
    (out_xlsx template doc_title : pystr) (items : list entry) (tws : worksheet) :
  fs !! template = Some (Workbook tws) ->
  template <> out_xlsx ->
  (items_accepted doc_title items = true ->
   exists ws',
     write_toc_excel out_xlsx template doc_title items fs
     = (Some tt, <[out_xlsx := Workbook ws']> fs)
     /\ (forall i e, items !! i = Some e ->
           get_row ws' (2 + i)
           = (Some (CStr (take max_cell_chars doc_title)),
              Some (CStr (take max_cell_chars
                            (replicate (4 * Z.to_nat (level_of e - 1)) 32%N
                             ++ title_of e))),
              match page_of e with Some p => Some (CInt p) | None => None end))
     /\ (forall r, (2 + length items <= r)%nat -> get_row ws' r = blank))
  /\ (items_accepted doc_title items = false ->
      write_toc_excel out_xlsx template doc_title items fs
      = (None, <[out_xlsx := Workbook tws]> fs)).
Proof.
  intros HT Hne. rewrite (write_toc_excel_unfold _ _ _ _ _ tws HT Hne). split.
  - intros Hacc.
    destruct (fill_sheet_rows (reload_sheet tws) doc_title items Hacc)
      as (ws' & -> & Hin & Hout).
    exists ws'. split_conj; [reflexivity| |exact Hout].
    intros i e He. rewrite (Hin i e He). unfold stored_row, indented.
    by rewrite str_mul_spaces.
  - intros Hacc. by rewrite fill_sheet_raises.
Qed.

Lemma write_toc_excel_rows_witness :
  exists ws',
    write_toc_excel (workbooks := plain_workbooks)
      (py "out/Doc_Inhaltsverzeichnis.xlsx") (py "T.xlsx")
      (py "Doc") example_items {[ py "T.xlsx" := Workbook example_template ]}
    = (Some tt,
       <[py "out/Doc_Inhaltsverzeichnis.xlsx" := Workbook ws']>
         {[ py "T.xlsx" := Workbook example_template ]})
    /\ get_row ws' 2 = (Some (CStr (py "Doc")), Some (CStr (py "Intro")),
                        Some (CInt 1))
    /\ get_row ws' 3 = (Some (CStr (py "Doc")),
                        Some (CStr (py "    Background")), Some (CInt 2))
    /\ get_row ws' 4 = (Some (CStr (py "Doc")), Some (CStr (py "Methods")),
                        Some (CInt 5))
    /\ get_row ws' 5 = blank.
Proof.
  destruct (write_toc_excel_rows (workbooks := plain_workbooks)
              {[ py "T.xlsx" := Workbook example_template ]}
              (py "out/Doc_Inhaltsverzeichnis.xlsx") (py "T.xlsx") (py "Doc")
              example_items example_template)
    as [Hok _]; [by rewrite lookup_singleton_eq|discriminate|].
  destruct (Hok eq_refl) as (ws' & Hrun & Hin & Hout).
  exists ws'. split_conj.
  - exact Hrun.
  - apply (Hin 0%nat (1, py "Intro", Some 1)). reflexivity.
  - apply (Hin 1%nat (2, py "Background", Some 2)). reflexivity.
  - apply (Hin 2%nat (1, py "Methods", Some 5)). reflexivity.
  - apply Hout. simpl. lia.
Defined.

(** C6, as stated, fails for a title with a control character: the sheet
    refuses the title, [write_toc_excel] raises, and the output file is the
    copy of the template with its demo row; no row is written for the
    entry. *)
Lemma control_character_writes_no_row :
  let out_xlsx := py "out/Doc_Inhaltsverzeichnis.xlsx" in
  let r := write_toc_excel (workbooks := plain_workbooks) out_xlsx (py "T.xlsx")
             (py "Doc") [(1, control_title, Some 1)] example_files in
  check_string control_title = None
  /\ r.1 = None
  /\ r.2 !! out_xlsx = Some (Workbook example_template)
  /\ get_row example_template 2
     = (Some (CStr (py "Demo")), Some (CStr (py "Demo title")), Some (CInt 7))
  /\ get_row example_template 2
     <> (Some (CStr (py "Doc")), Some (CStr control_title), Some (CInt 1)).
Proof. vm_compute. split_conj; try reflexivity. discriminate. Qed.

(** The two other conditions of C6 as amended: a title of 32768 characters
    is stored without its last character, and a template that is the output
    file itself makes [write_toc_excel] raise before anything is written. *)
Lemma long_title_is_cut :
  let title := replicate (Z.to_nat 32768) 65%N in
  match fill_sheet [] (py "Doc") [(1, title, None)] with
  | Some ws =>
      match (get_row ws 2).1.2 with
      | Some (CStr s) => Z.of_nat (length s)
      | _ => 0
      end
  | None => 0
  end = 32767.
Proof. vm_compute. reflexivity. Qed.

Lemma same_file_copy_raises :
  write_toc_excel (workbooks := plain_workbooks) (py "T.xlsx") (py "T.xlsx")
    (py "Doc") example_items example_files
  = (None, example_files).
Proof. vm_compute. reflexivity. Qed.

Lemma Forall2_map_eq {A B C} (f : A -> C) (g : B -> C) (P : A -> B -> Prop)
    (l : list A) : forall k : list B,
  map f l = map g k -> (forall x y, f x = g y -> P x y) -> Forall2 P l k.
Proof.
  induction l as [|x l IH]; intros [|y k] Heq HP; try discriminate.
  - constructor.
  - injection Heq as Hxy Heq. constructor; [by apply HP|by apply IH].
Qed.

Lemma lstrip_split s :
  exists pre, s = pre ++ lstrip s /\ Forall (fun c => is_space c = true) pre.
Proof.
  induction s as [|c s (pre & Hs & Hpre)]; [by exists []|].
  simpl. destruct (is_space c) eqn:Hc.
  - exists (c :: pre). split; [by rewrite Hs at 1|by constructor].
  - by exists [].
Qed.

Lemma rstrip_split s :
  exists post, s = rstrip s ++ post /\ Forall (fun c => is_space c = true) post.
Proof.
  destruct (lstrip_split (rev s)) as (pre & Hs & Hpre).
  exists (rev pre). split.
  - unfold rstrip. rewrite <- rev_app_distr, <- Hs. by rewrite rev_involutive.
  - apply Forall_forall. intros c Hc. rewrite Forall_forall in Hpre.
    apply Hpre. apply list_elem_of_In. apply list_elem_of_In in Hc.
    by apply in_rev.
Qed.

Lemma strip_stripped_of raw : stripped_of raw (strip raw).
Proof.
  split; [apply strip_trimmed|].
  destruct (rstrip_split raw) as (post & Hraw & Hpost).
  destruct (lstrip_split (rstrip raw)) as (pre & Hr & Hpre).
  exists pre, post. split_conj; [|exact Hpre|exact Hpost].
  unfold strip. rewrite app_assoc, <- Hr. exact Hraw.
Qed.

Lemma extract_titles_stripped outlines :
  Forall2 (fun e n => stripped_of n.1 (title_of e))
    (extract_bookmarks outlines) (raw_nodes outlines).
Proof.
  destruct outlines as [title target cs|seq]; simpl.
  - constructor; [apply strip_stripped_of|constructor].
  - eapply (Forall2_map_eq content cooked); [apply walk_content|].
    intros e n Hen. injection Hen as -> _. apply strip_stripped_of.
Qed.

(** C10.  The title of every entry that [extract_bookmarks] returns is the
    title of the node it was read from, in the order of the nodes, without
    the whitespace at its two ends: the raw title is the entry's title
    between two runs of whitespace, and the entry's title neither starts nor
    ends with whitespace.  This holds on the list path and on the
    single-node path.  The ledger triple of the entry at position [i] is the
    document title, that title after four spaces for each level above 1, and
    the page; column 2 of row [2 + i] of the sheet that [write_toc_excel]
    fills is the same text (cut to 32767 characters). *)
Theorem extracted_titles_trimmed (outlines : item) (doc_title : pystr) :
  Forall2 (fun e n => stripped_of n.1 (title_of e))
    (extract_bookmarks outlines) (raw_nodes outlines)
  /\ (forall i e,
        extract_bookmarks outlines !! i = Some e ->
        master_rows_of doc_title (extract_bookmarks outlines) !! i
        = Some (doc_title,
                replicate (4 * Z.to_nat (level_of e - 1)) 32%N ++ title_of e,
                master_page (page_of e)))
  /\ (forall ws ws' i e,
        fill_sheet ws doc_title (extract_bookmarks outlines) = Some ws' ->
        extract_bookmarks outlines !! i = Some e ->
        (get_row ws' (2 + i)).1.2
        = Some (CStr (take max_cell_chars
                        (replicate (4 * Z.to_nat (level_of e - 1)) 32%N
                         ++ title_of e)))).
Proof.
  split_conj.
  - apply extract_titles_stripped.
  - intros i e He. unfold master_rows_of.
    rewrite list_lookup_fmap, He. simpl. unfold indented.
    by rewrite str_mul_spaces.
  - intros ws ws' i e Hfill He.
    destruct (items_accepted doc_title (extract_bookmarks outlines)) eqn:Hacc.
    + destruct (fill_sheet_rows ws doc_title _ Hacc) as (ws2 & Hrun & Hin & _).
      rewrite Hrun in Hfill. injection Hfill as <-.
      rewrite (Hin i e He). unfold stored_row, indented. simpl.
      by rewrite str_mul_spaces.
    + by rewrite fill_sheet_raises in Hfill.
Qed.

(** ** The ledger *)

Lemma cells_of_not_blank v : is_blank (cells_of v) = false.
Proof. reflexivity. Qed.

Lemma row_has_value_blank ws r : row_has_value ws r = negb (is_blank (get_row ws r)).
Proof.
  unfold row_has_value, cell_value. destruct (get_row ws r) as [[[a|] [b|]] [c|]];
    reflexivity.
Qed.

Lemma is_blank_eq v : is_blank v = true <-> v = blank.
Proof.
  destruct v as [[[a|] [b|]] [c|]]; simpl; split; try done.
Qed.

Lemma get_row_elem ws v :
  v ∈ ws <-> exists r, (2 <= r <= max_row ws)%nat /\ get_row ws r = v.
Proof.
  unfold get_row, max_row. split.
  - intros (i & Hi)%list_elem_of_lookup. exists (i + 2)%nat.
    pose proof (lookup_lt_Some _ _ _ Hi).
    replace (i + 2 - 2)%nat with i by lia. rewrite Hi. split; [lia|done].
  - intros (r & Hr & Hv).
    destruct (lookup_lt_is_Some_2 ws (r - 2)%nat ltac:(lia)) as [x Hx].
    rewrite Hx in Hv. simpl in Hv. subst x.
    apply list_elem_of_lookup. eauto.
Qed.

Lemma existing_fold ws n : forall a (acc : gset row) v,
  v ∈ fold_left
        (fun existing r =>
           let v := get_row ws r in
           if is_blank v then existing else existing ∪ {[ v ]})
        (seq a n) acc
  <-> v ∈ acc
      \/ exists r, (a <= r < a + n)%nat /\ get_row ws r = v /\ is_blank v = false.
Proof.
  induction n as [|n IH]; intros a acc v; simpl.
  - split; [by left|]. intros [?|(r & ? & _)]; [done|lia].
  - rewrite IH. split.
    + intros [Hacc|(r & Hr & Hv & Hb)].
      * destruct (is_blank (get_row ws a)) eqn:Hba; [by left|].
        apply elem_of_union in Hacc as [?| ->%elem_of_singleton]; [by left|].
        right. exists a. split; [lia|done].
      * right. exists r. split; [lia|done].
    + intros [Hacc|(r & Hr & Hv & Hb)].
      * left. destruct (is_blank (get_row ws a)); [done|].
        apply elem_of_union. by left.
      * destruct (decide (r = a)) as [->|Hne].
        -- left. rewrite Hv, Hb. apply elem_of_union. right.
           by apply elem_of_singleton.
        -- right. exists r. split; [lia|done].
Qed.

Lemma existing_of_spec ws v :
  v ∈ existing_of true ws <-> v ∈ ws /\ is_blank v = false.
Proof.
  unfold existing_of. rewrite existing_fold, get_row_elem. unfold max_row.
  split.
  - intros [Hacc|(r & Hr & Hv & Hb)]; [by apply not_elem_of_empty in Hacc|].
    split; [|done]. exists r. split; [lia|done].
  - intros [(r & Hr & Hv) Hb]. right. exists r. split; [lia|done].
Qed.

Lemma first_empty_from_spec ws fuel : forall r,
  (2 <= r <= length ws + 2)%nat -> (length ws + 2 <= r + fuel)%nat ->
  let r0 := first_empty_from fuel ws r in
  (r <= r0 <= length ws + 2)%nat
  /\ get_row ws r0 = blank
  /\ (forall r', (r <= r' < r0)%nat -> get_row ws r' <> blank).
Proof.
  induction fuel as [|fuel IH]; intros r Hr Hfuel; cbn zeta.
  - simpl. split_conj; [lia..|apply get_row_beyond; lia|intros; lia].
  - cbn [first_empty_from]. rewrite row_has_value_blank.
    destruct (is_blank (get_row ws r)) eqn:Hb; simpl.
    + apply is_blank_eq in Hb. split_conj; [lia..|done|intros; lia].
    + assert (Hin : (r < length ws + 2)%nat).
      { destruct (Nat.lt_ge_cases r (length ws + 2)); [done|].
        rewrite get_row_beyond in Hb by lia. discriminate. }
      destruct (Z.ltb_spec (Z.of_nat (max_row ws) + 20000)
                  (Z.of_nat (r + 1))) as [Hcut|_];
        [unfold max_row in Hcut; lia|].
      destruct (IH (r + 1)%nat ltac:(lia) ltac:(lia)) as (Hr0 & Hblank & Hbefore).
      split_conj; [lia..|done|].
      intros r' Hr'. destruct (decide (r' = r)) as [->|Hne].
      * intros Heq. rewrite Heq in Hb. discriminate.
      * apply Hbefore. lia.
Qed.

(** The scan ends at an empty row, before its fuel and its cut-off. *)
Lemma first_empty_row_spec ws :
  (2 <= first_empty_row ws <= length ws + 2)%nat
  /\ get_row ws (first_empty_row ws) = blank
  /\ (forall r, (2 <= r < first_empty_row ws)%nat -> get_row ws r <> blank).
Proof.
  unfold first_empty_row, max_row. apply first_empty_from_spec; lia.
Qed.

Lemma append_rows_spec existing dedupe rows : forall ws r,
  (2 <= r)%nat ->
  let kept := filter (fun v => ~ (dedupe = true /\ cells_of v ∈ existing)) rows in
  (forall i v, kept !! i = Some v ->
     get_row (append_rows ws existing dedupe r rows) (r + i) = cells_of v)
  /\ (forall r', (2 <= r')%nat -> (r' < r \/ r + length kept <= r')%nat ->
        get_row (append_rows ws existing dedupe r rows) r' = get_row ws r').
Proof.
  induction rows as [|v rows IH]; intros ws r Hr; cbn zeta.
  - split; [done|]. reflexivity.
  - cbn [append_rows].
    destruct (dedupe && bool_decide (cells_of v ∈ existing)) eqn:Hskip.
    + apply andb_prop in Hskip as [-> Hin%bool_decide_eq_true].
      rewrite filter_cons_False by (intros Hn; by apply Hn).
      by apply IH.
    + rewrite filter_cons_True.
      2:{ intros [-> Hin]. simpl in Hskip.
          by rewrite bool_decide_eq_true_2 in Hskip. }
      fold (set_row ws r (cells_of v)).
      destruct (IH (set_row ws r (cells_of v)) (r + 1)%nat ltac:(lia))
        as [Hin Hout].
      split.
      * intros [|i] v' Hv'.
        -- injection Hv' as <-. rewrite Hout by lia.
           rewrite Nat.add_0_r. apply get_row_set_row.
        -- replace (r + S i)%nat with (r + 1 + i)%nat by lia. by apply Hin.
      * intros r' Hr' Hcase. cbn [length] in Hcase.
        rewrite Hout by lia. apply get_row_set_row_ne; lia.
Qed.

Lemma kept_rows_existing ws rows :
  filter (fun v => ~ (true = true /\ cells_of v ∈ existing_of true ws)) rows
  = kept_rows ws rows.
Proof.
  apply list_filter_iff. intros v. rewrite existing_of_spec. split.
  - intros Hn Hin. apply Hn. split_conj; [done..|reflexivity].
  - intros Hn (_ & Hin & _). by apply Hn.
Qed.

Lemma merge_rows_spec ws rows :
  (forall i v, kept_rows ws rows !! i = Some v ->
     get_row (merge_rows ws rows true) (first_empty_row ws + i) = cells_of v)
  /\ (forall r, (2 <= r)%nat ->
        (r < first_empty_row ws
         \/ first_empty_row ws + length (kept_rows ws rows) <= r)%nat ->
        get_row (merge_rows ws rows true) r = get_row ws r).
Proof.
  unfold merge_rows.
  destruct (first_empty_row_spec ws) as ([Hr0 _] & _).
  pose proof (append_rows_spec (existing_of true ws) true rows ws
                (first_empty_row ws) Hr0) as Hspec.
  cbn zeta in Hspec. rewrite kept_rows_existing in Hspec. exact Hspec.
Qed.


Lemma clear_demo_rows_all_blank ws :
  Forall (fun v => v = blank) (clear_demo_rows ws).
Proof.
  apply Forall_lookup. intros i v Hi.
  pose proof (clear_demo_rows_blank ws (i + 2) ltac:(lia)) as Hb.
  unfold get_row in Hb. replace (i + 2 - 2)%nat with i in Hb by lia.
  by rewrite Hi in Hb.
Qed.

Lemma reload_sheet_blank {workbooks : Workbooks} ws :
  Forall (fun v => v = blank) ws -> reload_sheet ws = ws.
Proof.
  induction 1 as [|v ws -> _ IH]; [reflexivity|].
  unfold reload_sheet in *. cbn [map]. by rewrite IH.
Qed.

Lemma append_master_present {workbooks : Workbooks} (master template : pystr)
    (rows : list ledger_row) (dedupe : bool) (fs : files) (saved : worksheet) :
  fs !! master = Some (Workbook saved) ->
  append_master master template rows dedupe fs
  = (Some tt,
     <[master := Workbook (merge_rows (reload_sheet saved) rows dedupe)]> fs).
Proof.
  intros Hm. unfold append_master, bind, path_exists, load_workbook, wb_save, ret.
  rewrite bool_decide_eq_true_2 by (rewrite Hm; by eexists). simpl.
  by rewrite Hm.
Qed.

Lemma append_master_created {workbooks : Workbooks} (master template : pystr)
    (rows : list ledger_row) (dedupe : bool) (fs : files) (tws : worksheet) :
  fs !! master = None ->
  fs !! template = Some (Workbook tws) ->
  append_master master template rows dedupe fs
  = (Some tt,
     <[master := Workbook
                   (merge_rows (clear_demo_rows (reload_sheet tws)) rows dedupe)]>
       fs).
Proof.
  intros Hm HT.
  assert (Hne : template <> master) by (intros ->; congruence).
  unfold append_master, bind, path_exists, shutil_copy, load_workbook,
    wb_save, ret.
  rewrite bool_decide_eq_false_2 by (rewrite Hm; by intros [? ?]). simpl.
  rewrite HT, decide_False by exact Hne. rewrite lookup_insert_eq. simpl.
  rewrite lookup_insert_eq.
  rewrite (reload_sheet_blank _ (clear_demo_rows_all_blank _)).
  by rewrite !insert_insert_eq.
Qed.

Lemma kept_rows_all_blank ws rows :
  Forall (fun v => v = blank) ws -> kept_rows ws rows = rows.
Proof.
  intros Hws. unfold kept_rows. induction rows as [|v rows IH]; [done|].
  rewrite filter_cons, decide_True; [by rewrite IH|].
  intros Hin. rewrite Forall_forall in Hws. specialize (Hws _ Hin).
  discriminate.
Qed.


(** *** Merging twice *)

Lemma gap_free_lookup ws : forall i j,
  gap_free ws = true -> (i <= j)%nat ->
  default blank (ws !! i) = blank -> default blank (ws !! j) = blank.
Proof.
  induction ws as [|v ws IH]; intros i j Hg Hij Hi; [done|].
  simpl in Hg. destruct (is_blank v) eqn:Hv.
  - destruct j as [|j]; [by apply is_blank_eq|]. simpl.
    destruct (ws !! j) as [x|] eqn:Hx; [|done]. simpl.
    rewrite forallb_forall in Hg. apply is_blank_eq, Hg.
    apply list_elem_of_In, list_elem_of_lookup. eauto.
  - destruct i as [|i].
    + simpl in Hi. apply is_blank_eq in Hi. congruence.
    + destruct j as [|j]; [lia|]. simpl in *. apply (IH i j); [done|lia|done].
Qed.

Lemma gap_free_rows ws r r' :
  gap_free ws = true -> (2 <= r <= r')%nat ->
  get_row ws r = blank -> get_row ws r' = blank.
Proof.
  intros Hg Hr. unfold get_row. apply gap_free_lookup; [done|lia].
Qed.

Lemma get_row_nonblank_elem ws r v :
  (2 <= r)%nat -> get_row ws r = v -> is_blank v = false -> v ∈ ws.
Proof.
  intros Hr Hv Hb. apply get_row_elem. exists r. split; [|done].
  split; [done|]. unfold max_row.
  destruct (Nat.le_gt_cases r (S (length ws))) as [|Hgt]; [done|].
  rewrite get_row_beyond in Hv by lia. subst v. discriminate.
Qed.

Lemma append_rows_all_skipped existing rows : forall ws r,
  (forall v, v ∈ rows -> cells_of v ∈ existing) ->
  append_rows ws existing true r rows = ws.
Proof.
  induction rows as [|v rows IH]; intros ws r Hall; [done|].
  cbn [append_rows]. rewrite bool_decide_eq_true_2.
  - apply IH. intros x Hx. apply Hall, elem_of_cons. by right.
  - apply Hall, elem_of_cons. by left.
Qed.

Lemma merge_rows_holds_batch ws rows v :
  gap_free ws = true -> v ∈ rows -> cells_of v ∈ merge_rows ws rows true.
Proof.
  intros Hg Hv. destruct (merge_rows_spec ws rows) as [Hin Hout].
  destruct (first_empty_row_spec ws) as ([Hr0 _] & Hblank & _).
  destruct (decide (cells_of v ∈ ws)) as [Hc|Hc].
  - apply get_row_elem in Hc as (r & Hr & Heq).
    assert (Hlt : (r < first_empty_row ws)%nat).
    { destruct (Nat.lt_ge_cases r (first_empty_row ws)) as [|Hge]; [done|].
      rewrite (gap_free_rows ws (first_empty_row ws) r) in Heq;
        [discriminate|done|lia|done]. }
    apply (get_row_nonblank_elem _ r); [lia| |done].
    rewrite Hout by (try lia; by left). exact Heq.
  - assert (Hk : v ∈ kept_rows ws rows)
      by (unfold kept_rows; by apply list_elem_of_filter).
    apply list_elem_of_lookup in Hk as [i Hi].
    apply (get_row_nonblank_elem _ (first_empty_row ws + i)); [lia| |done].
    by apply Hin.
Qed.


Lemma merge_rows_spec_gen ws rows dedupe :
  (forall i v, written_rows dedupe ws rows !! i = Some v ->
     get_row (merge_rows ws rows dedupe) (first_empty_row ws + i) = cells_of v)
  /\ (forall r, (2 <= r)%nat ->
        (r < first_empty_row ws
         \/ first_empty_row ws + length (written_rows dedupe ws rows) <= r)%nat ->
        get_row (merge_rows ws rows dedupe) r = get_row ws r).
Proof.
  destruct dedupe; [apply merge_rows_spec|].
  unfold merge_rows, written_rows.
  destruct (first_empty_row_spec ws) as ([Hr0 _] & _).
  pose proof (append_rows_spec (existing_of false ws) false rows ws
                (first_empty_row ws) Hr0) as Hspec.
  cbn zeta in Hspec.
  match type of Hspec with
  | context [length ?kept] => assert (Hall : kept = rows)
  end.
  { clear. induction rows as [|v rows IH]; [done|].
    rewrite filter_cons, decide_True by (by intros [? _]). by rewrite IH. }
  by rewrite Hall in Hspec.
Qed.


(** Merging the same batch again into a ledger without gaps changes nothing. *)
Lemma merge_rows_idempotent ws rows :
  gap_free ws = true ->
  merge_rows (merge_rows ws rows true) rows true = merge_rows ws rows true.
Proof.
  intros Hg. unfold merge_rows at 1. apply append_rows_all_skipped.
  intros v Hv. apply existing_of_spec. split; [|done].
  by apply merge_rows_holds_batch.
Qed.

Lemma all_blank_gap_free ws : Forall (fun v => v = blank) ws -> gap_free ws = true.
Proof.
  induction 1 as [|v ws -> Hws IH]; [done|]. simpl.
  apply forallb_forall. intros x Hx%list_elem_of_In.
  rewrite Forall_forall in Hws. by rewrite (Hws x Hx).
Qed.

(** ** The batch *)

Lemma out_paths_differ cfg doc_title :
  out_pdf_path cfg doc_title <> out_xlsx_path cfg doc_title.
Proof.
  unfold out_pdf_path, out_xlsx_path, path_join.
  intros Heq. do 3 apply app_inv_head in Heq. discriminate.
Qed.

Section BatchFacts.
Context {metrics : FontMetrics} {workbooks : Workbooks}.

Lemma process_pdf_unfold (cfg : RunConfig) (p : pdf) (fs : files) :
  process_pdf cfg p fs
  = match outline p with
    | None => (None, fs)
    | Some o =>
        match extract_bookmarks o with
        | [] => (Some None, fs)
        | items =>
            let doc := stem p in
            let fs1 := <[out_pdf_path cfg doc
                         := PdfFile (draw_toc_pdf doc items)]> fs in
            match fs1 !! template_xlsx cfg with
            | None => (None, fs1)
            | Some f =>
                if decide (template_xlsx cfg = out_xlsx_path cfg doc)
                then (None, fs1)
                else
                  match f with
                  | Workbook tws =>
                      match fill_sheet (reload_sheet tws) doc items with
                      | Some ws =>
                          (Some (Some (master_rows_of doc items)),
                           <[out_xlsx_path cfg doc := Workbook ws]> fs1)
                      | None =>
                          (None, <[out_xlsx_path cfg doc := Workbook tws]> fs1)
                      end
                  | _ => (None, <[out_xlsx_path cfg doc := f]> fs1)
                  end
            end
        end
    end.
Proof.
  unfold process_pdf, bind, ret, raise.
  destruct (outline p) as [o|]; [|done].
  destruct (extract_bookmarks o) as [|e items]; [done|].
  unfold write_toc_pdf, canvas_save, write_toc_excel, bind, shutil_copy,
    load_workbook, wb_save, raise. cbn zeta.
  destruct (_ !! template_xlsx cfg) as [f|]; [|done].
  destruct (decide (template_xlsx cfg = _)); [done|].
  destruct f as [pages|tws|]; rewrite ?lookup_insert_eq; try done.
  destruct (fill_sheet _ _ _); rewrite ?insert_insert_eq; done.
Qed.

Lemma process_pdf_frame (cfg : RunConfig) (p : pdf) (fs : files)
    (path : pystr) :
  path <> out_pdf_path cfg (stem p) ->
  path <> out_xlsx_path cfg (stem p) ->
  (process_pdf cfg p fs).2 !! path = fs !! path.
Proof.
  intros Hpdf Hxlsx. rewrite process_pdf_unfold.
  destruct (outline p) as [o|]; [|done].
  destruct (extract_bookmarks o) as [|e items]; [done|]. cbn zeta.
  destruct (_ !! template_xlsx cfg) as [f|]; simpl;
    [|by rewrite lookup_insert_ne].
  destruct (decide (template_xlsx cfg = _)); simpl;
    [by rewrite lookup_insert_ne|].
  destruct f as [pages|tws|]; simpl; rewrite ?lookup_insert_ne by done;
    try done.
  destruct (fill_sheet _ _ _); simpl; rewrite ?lookup_insert_ne by done; done.
Qed.

Lemma fill_sheet_accepted ws doc_title items :
  fill_sheet ws doc_title items = None <-> items_accepted doc_title items = false.
Proof.
  split.
  - intros Hnone. destruct (items_accepted doc_title items) eqn:Hacc; [|done].
    destruct (fill_sheet_rows ws doc_title items Hacc) as (ws' & Hrun & _).
    congruence.
  - apply fill_sheet_raises.
Qed.

Lemma process_pdf_rows (cfg : RunConfig) (p : pdf) (fs : files) :
  template_xlsx cfg <> out_pdf_path cfg (stem p) ->
  template_xlsx cfg <> out_xlsx_path cfg (stem p) ->
  match (process_pdf cfg p fs).1 with
  | Some (Some rows) => rows
  | _ => []
  end = contributed_rows p (fs !! template_xlsx cfg).
Proof.
  intros HT HTx. rewrite process_pdf_unfold. unfold contributed_rows.
  destruct (outline p) as [o|]; [|done].
  destruct (extract_bookmarks o) as [|e items] eqn:Hitems.
  { by destruct (fs !! template_xlsx cfg) as [[]|]. }
  cbn zeta. rewrite lookup_insert_ne by done.
  destruct (fs !! template_xlsx cfg) as [f|]; [|done].
  rewrite decide_False by done.
  destruct f as [pages|tws|]; try done.
  destruct (fill_sheet (reload_sheet tws) (stem p) (e :: items)) eqn:Hfill.
  - destruct (items_accepted (stem p) (e :: items)) eqn:Hacc; [done|].
    apply (fill_sheet_accepted (reload_sheet tws)) in Hacc. congruence.
  - apply fill_sheet_accepted in Hfill. by rewrite Hfill.
Qed.

Lemma append_master_master (master template : pystr)
    (rows : list ledger_row) (dedupe : bool) (fs : files) :
  rows <> [] ->
  (append_master master template rows dedupe fs).2 !! master
  = merged_master dedupe rows (fs !! master) (fs !! template).
Proof.
  intros Hrows. unfold merged_master. destruct rows as [|v rows]; [done|].
  destruct (fs !! master) as [f|] eqn:Hm.
  - destruct f as [pages|saved|].
    + unfold append_master, bind, path_exists, load_workbook, ret.
      rewrite bool_decide_eq_true_2 by done. simpl. by rewrite Hm.
    + rewrite (append_master_present _ _ _ _ _ saved Hm). simpl.
      by rewrite lookup_insert_eq.
    + unfold append_master, bind, path_exists, load_workbook, ret.
      rewrite bool_decide_eq_true_2 by done. simpl. by rewrite Hm.
  - destruct (fs !! template) as [f|] eqn:HT.
    + assert (Hne : template <> master) by (intros ->; congruence).
      destruct f as [pages|tws|].
      * unfold append_master, bind, path_exists, shutil_copy, load_workbook.
        rewrite bool_decide_eq_false_2 by (rewrite Hm; by intros [? ?]). simpl.
        rewrite HT, decide_False by done. rewrite lookup_insert_eq. simpl.
        by rewrite lookup_insert_eq.
      * rewrite (append_master_created _ _ _ _ _ tws Hm HT). simpl.
        by rewrite lookup_insert_eq.
      * unfold append_master, bind, path_exists, shutil_copy, load_workbook.
        rewrite bool_decide_eq_false_2 by (rewrite Hm; by intros [? ?]). simpl.
        rewrite HT, decide_False by done. rewrite lookup_insert_eq. simpl.
        by rewrite lookup_insert_eq.
    + unfold append_master, bind, path_exists, shutil_copy.
      rewrite bool_decide_eq_false_2 by (rewrite Hm; by intros [? ?]). simpl.
      by rewrite HT.
Qed.

Lemma append_master_frame (master template : pystr)
    (rows : list ledger_row) (dedupe : bool) (fs : files) (path : pystr) :
  path <> master ->
  (append_master master template rows dedupe fs).2 !! path = fs !! path.
Proof.
  intros Hne.
  unfold append_master, bind, path_exists, shutil_copy, load_workbook,
    wb_save, ret.
  destruct (fs !! master) as [f|] eqn:Hm.
  - rewrite bool_decide_eq_true_2 by done. simpl. rewrite Hm.
    destruct f; simpl; rewrite ?lookup_insert_ne by done; done.
  - rewrite bool_decide_eq_false_2 by (by intros [? ?]). simpl.
    destruct (fs !! template) as [f|]; simpl; [|done].
    destruct (decide (template = master)); simpl; [done|].
    rewrite lookup_insert_eq.
    destruct f; simpl; rewrite ?lookup_insert_eq; simpl;
      rewrite ?lookup_insert_ne by done; done.
Qed.

Lemma contributed_rows_template (p : pdf) (template : option file) :
  contributed_rows p template <> [] ->
  exists tws, template = Some (Workbook tws).
Proof.
  unfold contributed_rows. destruct (outline p); [|done].
  destruct template as [[]|]; try done. eauto.
Qed.

(** C9 (as amended).  When the processing of a document raises, the
    failure is absorbed: the document counts as one error, adds no row to
    the ledger batch, and the loop goes on with the next document; no file
    other than the document's two outputs is touched.  What was written
    before the failing step stays: when the outline was read and is not
    empty, the document's PDF is in the output folder after the failure. *)
Theorem failed_file_is_absorbed (cfg : RunConfig) (st : batch_state)
    (p : pdf) (rest : list pdf) :
  (process_pdf cfg p (disk st)).1 = None ->
  let st' := batch_step cfg st p in
  ok st' = ok st
  /\ err st' = err st + 1
  /\ master_rows st' = master_rows st
  /\ fold_left (batch_step cfg) (p :: rest) st
     = fold_left (batch_step cfg) rest st'
  /\ (forall path,
        path <> out_pdf_path cfg (stem p) ->
        path <> out_xlsx_path cfg (stem p) ->
        disk st' !! path = disk st !! path)
  /\ (forall o,
        outline p = Some o -> extract_bookmarks o <> [] ->
        disk st' !! out_pdf_path cfg (stem p)
        = Some (PdfFile (draw_toc_pdf (stem p) (extract_bookmarks o)))).
Proof.
  intros Hfail. cbn zeta.
  assert (Hdisk : disk (batch_step cfg st p) = (process_pdf cfg p (disk st)).2).
  { unfold batch_step. by destruct (process_pdf cfg p (disk st)) as [[[|]|] ?]. }
  split_conj.
  - unfold batch_step.
    by destruct (process_pdf cfg p (disk st)) as [[[|]|] ?].
  - unfold batch_step.
    by destruct (process_pdf cfg p (disk st)) as [[[|]|] ?].
  - unfold batch_step.
    by destruct (process_pdf cfg p (disk st)) as [[[|]|] ?].
  - reflexivity.
  - intros path Hpdf Hxlsx. rewrite Hdisk. by apply process_pdf_frame.
  - intros o Ho Hitems. rewrite Hdisk. rewrite process_pdf_unfold, Ho.
    destruct (extract_bookmarks o) as [|e items]; [done|]. cbn zeta.
    pose proof (out_paths_differ cfg (stem p)) as Hne.
    destruct (_ !! template_xlsx cfg) as [f|]; simpl;
      [|by rewrite lookup_insert_eq].
    destruct (decide (template_xlsx cfg = _)); simpl;
      [by rewrite lookup_insert_eq|].
    destruct f as [pages|tws|]; simpl;
      rewrite ?lookup_insert_ne by done; try by rewrite lookup_insert_eq.
    destruct (fill_sheet _ _ _); simpl;
      rewrite ?lookup_insert_ne by done; by rewrite lookup_insert_eq.
Qed.

(** C8.  [on_start] with the template absent opens one error dialog and
    returns: [run_batch] is not called, so no document is processed, no
    file is written and nothing is counted.  With both folders chosen the
    dialog is the one that names the template. *)
Theorem on_start_missing_template (iter_pdfs : pystr -> bool -> list pdf)
    (self : App) (fs : files) :
  fs !! app_template_xlsx self = None ->
  exists d,
    on_start iter_pdfs self fs = (Some [d], fs)
    /\ is_error d = true
    /\ (strip (var_input self) <> [] -> strip (var_output self) <> [] ->
        d = showerror (py "Template fehlt")
              (py "Template nicht gefunden: " ++ app_template_xlsx self)).
Proof.
  intros HT. unfold on_start.
  destruct (strip (var_input self)) as [|c inp]; [by eexists|].
  destruct (strip (var_output self)) as [|c' out]; [by eexists|].
  unfold bind, path_exists. rewrite HT.
  rewrite bool_decide_eq_false_2 by (by intros [? ?]). by eexists.
Qed.

End BatchFacts.

Lemma failed_file_is_absorbed_witness :
  let st := mkBatch [] 0 0 broken_template_files in
  let st' := batch_step (metrics := fixed_pitch_metrics)
               (workbooks := plain_workbooks) example_cfg st example_pdf in
  ok st' = 0 /\ err st' = 0 + 1
  /\ disk st' !! out_pdf_path example_cfg (py "Doc")
     = Some (PdfFile (draw_toc_pdf (metrics := fixed_pitch_metrics) (py "Doc")
                        example_items)).
Proof.
  cbn zeta.
  destruct (failed_file_is_absorbed (metrics := fixed_pitch_metrics)
              (workbooks := plain_workbooks) example_cfg
              (mkBatch [] 0 0 broken_template_files) example_pdf [])
    as (Hok & Herr & _ & _ & _ & Hpdf); [vm_compute; reflexivity|].
  split_conj; [exact Hok|exact Herr|].
  apply (Hpdf (Sub [Dest (py "Intro") (Some 0) [];
                    Sub [Dest (py "Background") (Some 1) []];
                    Dest (py "Methods") (Some 4) []])); [reflexivity|discriminate].
Defined.

(** C9, as stated, fails when the sheet writer raises: the template is not
    a workbook, the document counts as failed, and its PDF and a copy of the
    template under the sheet's name are left in the output folder. *)
Lemma failed_file_leaves_outputs :
  let r := run_batch (metrics := fixed_pitch_metrics)
             (workbooks := plain_workbooks) example_cfg
             [example_pdf] broken_template_files in
  r.1 = Some (0, 1)
  /\ r.2 !! py "out/Doc_Inhaltsverzeichnis.pdf"
     = Some (PdfFile (draw_toc_pdf (metrics := fixed_pitch_metrics) (py "Doc")
                        example_items))
  /\ r.2 !! py "out/Doc_Inhaltsverzeichnis.xlsx" = Some OtherFile
  /\ r.2 !! py "out/MASTER_Inhaltsverzeichnis.xlsx" = None.
Proof. cbn zeta. split_conj; vm_compute; reflexivity. Qed.

Lemma on_start_missing_template_witness :
  on_start (metrics := fixed_pitch_metrics) (workbooks := plain_workbooks)
    (fun _ _ => [example_pdf]) example_app ∅
  = (Some [showerror (py "Template fehlt")
             (py "Template nicht gefunden: T.xlsx")], ∅).
Proof.
  destruct (on_start_missing_template (metrics := fixed_pitch_metrics)
              (workbooks := plain_workbooks)
              (fun _ _ => [example_pdf]) example_app ∅)
    as (d & Hrun & _ & Hd); [reflexivity|].
  rewrite Hrun, Hd; [reflexivity|discriminate..].
Defined.

(** [run_batch] itself does not look for the template: called without one,
    it writes the PDF of each document that has an outline and counts the
    document as failed. *)
Lemma run_batch_without_template :
  let r := run_batch (metrics := fixed_pitch_metrics)
             (workbooks := plain_workbooks) example_cfg [example_pdf] ∅ in
  r.1 = Some (0, 1)
  /\ r.2 !! py "out/Doc_Inhaltsverzeichnis.pdf"
     = Some (PdfFile (draw_toc_pdf (metrics := fixed_pitch_metrics) (py "Doc")
                        example_items)).
Proof. cbn zeta. split_conj; vm_compute; reflexivity. Qed.

(** C5.  The dedupe does not make the second run of a batch harmless for
    every document.  A bookmark whose title is empty after stripping gives
    the ledger row [("Doc", "", 2)]; the saved empty string is read back as
    an empty cell, the row found by the second run is [("Doc", None, 2)],
    the incoming row is not in [existing] and is appended again: two data
    rows after the first run, three after the second. *)
Lemma blank_title_row_appended_again :
  let run := run_batch (metrics := fixed_pitch_metrics)
               (workbooks := plain_workbooks) example_cfg [blank_title_pdf] in
  let fs1 := (run example_files).2 in
  let fs2 := (run fs1).2 in
  dedupe_master example_cfg = true
  /\ extract_bookmarks
       (Sub [Dest (py "Intro") (Some 0) []; Dest (py "   ") (Some 1) []])
     = [(1, py "Intro", Some 1); (1, [], Some 2)]
  /\ (run example_files).1 = Some (1, 0)
  /\ (run fs1).1 = Some (1, 0)
  /\ fs1 !! master_path example_cfg
     = Some (Workbook
               [(Some (CStr (py "Doc")), Some (CStr (py "Intro")), Some (CInt 1));
                (Some (CStr (py "Doc")), Some (CStr []), Some (CInt 2))])
  /\ load_workbook (workbooks := plain_workbooks) (master_path example_cfg) fs1
     = (Some [(Some (CStr (py "Doc")), Some (CStr (py "Intro")), Some (CInt 1));
              (Some (CStr (py "Doc")), None, Some (CInt 2))], fs1)
  /\ fs2 !! master_path example_cfg
     = Some (Workbook
               [(Some (CStr (py "Doc")), Some (CStr (py "Intro")), Some (CInt 1));
                (Some (CStr (py "Doc")), None, Some (CInt 2));
                (Some (CStr (py "Doc")), Some (CStr []), Some (CInt 2))])
  /\ ledger_row_count example_cfg fs1 = 2%nat
  /\ ledger_row_count example_cfg fs2 = 3%nat.
Proof. cbn zeta. split_conj; vm_compute; reflexivity. Qed.

(** A ledger with data below an empty row: the merge writes over that data,
    and merging the same batch again adds a row. *)
Lemma merge_into_gap_not_idempotent :
  let a := (Some (CStr (py "A")), None, None) in
  let b := (py "B", py "b", None) in
  let ws := [a; blank; cells_of b] in
  let rows := [(py "X", py "x", None); (py "Y", py "y", None); b] in
  gap_free ws = false
  /\ row_count (merge_rows ws rows true) = 3%nat
  /\ row_count (merge_rows (merge_rows ws rows true) rows true) = 4%nat.
Proof. cbn zeta. split_conj; vm_compute; reflexivity. Qed.

(** Two equal rows of one batch, not in the ledger, are both written; a row
    that the ledger holds is skipped. *)
Example merge_rows_batch_duplicates :
  let x := (py "Doc", py "Intro", Some 1) in
  let y := (py "Old", py "Start", Some 3) in
  merge_rows [cells_of y; blank] [x; y; x] true
  = [cells_of y; cells_of x; cells_of x].
Proof. vm_compute. reflexivity. Qed.

(** * Further properties of the code *)

(** ** The flattener *)

Lemma walk_outline_by_depth_aux (seq : list item) : forall level,
  walk_outline seq level = flat_map (leveled_item level) seq.
Proof.
  induction seq as [|g rest IHg IHrest|title target cs g rest IHg IHrest
                   |title target cs rest Hrest IHrest] using walk_ind;
    intros level.
  - reflexivity.
  - rewrite walk_outline_sub, IHg, IHrest. reflexivity.
  - rewrite walk_outline_dest_sub, IHg, IHrest. reflexivity.
  - rewrite walk_outline_dest by exact Hrest. rewrite IHrest. reflexivity.
Qed.

(** X1.  [walk_outline] gives every node the level of the call plus the
    number of lists that enclose the node; the look-ahead at the item after
    a node does not change the result: a list is walked one level deeper,
    whether or not it follows a node. *)
Theorem walk_outline_by_depth (seq : list item) (level : Z) :
  walk_outline seq level = flat_map (leveled_item level) seq.
Proof.
  revert level.
  induction seq as [|g rest IHg IHrest|title target cs g rest IHg IHrest
                   |title target cs rest Hrest IHrest] using walk_ind;
    intros level.
  - reflexivity.
  - rewrite walk_outline_sub. cbn [flat_map leveled_item].
    by rewrite IHg, IHrest.
  - rewrite walk_outline_dest_sub. cbn [flat_map leveled_item app].
    by rewrite IHg, IHrest.
  - rewrite walk_outline_dest by exact Hrest. cbn [flat_map leveled_item app].
    by rewrite IHrest.
Qed.

Lemma item_ind' (P : item -> Prop) :
  (forall title target cs, P (Dest title target cs)) ->
  (forall g, Forall P g -> P (Sub g)) ->
  forall it, P it.
Proof.
  intros Hdest Hsub. fix IH 1. intros [title target cs|g]; [apply Hdest|].
  apply Hsub. induction g as [|x g IHg]; constructor; [apply IH|exact IHg].
Qed.

Lemma nesting_elem (g : list item) (x : item) :
  x ∈ g -> 1 + nesting x <= nesting (Sub g).
Proof.
  intros Hin. cbn [nesting].
  induction Hin as [x g|x y g _ IH]; cbn [fold_right] in *; lia.
Qed.

Lemma leveled_item_levels (it : item) : forall level,
  Forall (fun e => level <= level_of e <= level + nesting it)
    (leveled_item level it).
Proof.
  induction it as [title target cs|g IH] using item_ind'; intros level.
  - constructor; [|constructor]. unfold level_of, mk_entry. simpl. lia.
  - cbn [leveled_item]. apply Forall_forall. intros e He.
    apply list_elem_of_In, in_flat_map in He as (x & Hx%list_elem_of_In & He).
    rewrite Forall_forall in IH. specialize (IH x Hx (level + 1)).
    rewrite Forall_forall in IH. apply list_elem_of_In in He.
    specialize (IH e He). pose proof (nesting_elem g x Hx). lia.
Qed.

(** X2.  Every level that [extract_bookmarks] returns is at least 1 and at
    most the nesting depth of the outline's lists (1 for an outline that is
    a single node). *)
Theorem extract_bookmarks_levels_bounded (outlines : item) :
  Forall (fun e => 1 <= level_of e <= Z.max 1 (nesting outlines))
    (extract_bookmarks outlines).
Proof.
  destruct outlines as [title target cs|seq].
  - constructor; [|constructor]. unfold level_of, mk_entry. simpl. lia.
  - pose proof (extract_levels_ge (Sub seq)) as Hge.
    cbn [extract_bookmarks] in *. rewrite walk_outline_by_depth_aux in *.
    pose proof (leveled_item_levels (Sub seq) 0) as Hl.
    cbn [leveled_item] in Hl. change (0 + 1) with 1 in Hl.
    rewrite Forall_forall in *. intros e He.
    specialize (Hge e He). specialize (Hl e He). simpl in *. lia.
Qed.

(** ** Page layout: lines per page *)

Lemma page_break_iff (k : nat) (y : Q) :
  (y == line_y k)%Q -> Qltb y (bottom + line_h) = (31 <=? k)%nat.
Proof.
  intros Hy. unfold Qltb.
  destruct (Nat.leb_spec 31 k) as [Hk|Hk].
  - apply negb_true_iff, not_true_iff_false. intros Hle%Qle_bool_iff.
    rewrite Hy in Hle. revert Hle.
    unfold line_y, header_y, top, height, bottom, line_h, A4, mm, Qle.
    simpl. lia.
  - apply negb_false_iff, Qle_bool_iff. rewrite Hy.
    unfold line_y, header_y, top, height, bottom, line_h, A4, mm, Qle.
    simpl. lia.
Qed.

Lemma line_y_succ (k : nat) (y : Q) :
  (y == line_y k)%Q -> (y - line_h == line_y (S k))%Q.
Proof.
  intros Hy. unfold line_y in *. rewrite Hy, Nat2Z.inj_succ.
  unfold Z.succ. rewrite inject_Z_plus. ring.
Qed.

Lemma line_y_bounds (k : nat) :
  (k < 31)%nat -> (bottom + line_h <= line_y k)%Q /\ (line_y k <= header_y)%Q.
Proof.
  intros Hk.
  unfold line_y, header_y, top, height, bottom, line_h, A4, mm, Qle.
  simpl. lia.
Qed.

Lemma paginate_shape (items : list entry) : forall (y : Q) (cur : list (entry * Q)),
  (length cur <= 31)%nat ->
  (y == line_y (length cur))%Q ->
  (forall j l, cur !! j = Some l -> (l.2 == line_y j)%Q) ->
  length (paginate y cur items)
  = (1 + (length cur + length items - 1) / 31)%nat
  /\ Forall (fun ch => (length ch <= 31)%nat) (paginate y cur items)
  /\ (forall i ch, paginate y cur items !! i = Some ch ->
        (S i < length (paginate y cur items))%nat -> length ch = 31%nat)
  /\ Forall (fun ch => forall j l, ch !! j = Some l -> (l.2 == line_y j)%Q)
       (paginate y cur items).
Proof.
  induction items as [|e items IH]; intros y cur Hlen Hy Hpos.
  - cbn [paginate length]. split_conj.
    + rewrite Nat.div_small by lia. reflexivity.
    + constructor; [exact Hlen|constructor].
    + intros i ch Hi Hlast. simpl in Hlast. lia.
    + constructor; [exact Hpos|constructor].
  - cbn [paginate]. rewrite (page_break_iff (length cur) y Hy).
    destruct (Nat.leb_spec 31 (length cur)) as [Hfull|Hroom].
    + assert (Hk : length cur = 31%nat) by lia.
      destruct (IH (header_y - line_h)%Q [(e, header_y)])
        as (Hn & Hle & Hfullpages & Hys).
      * simpl. lia.
      * apply (line_y_succ 0). unfold line_y. simpl. ring.
      * intros [|j] l Hl; [|done]. injection Hl as <-.
        unfold line_y. simpl. ring.
      * cbn [length] in *. split_conj.
        -- rewrite Hn, Hk.
           replace (31 + S (length items) - 1)%nat
             with (1 * 31 + length items)%nat by lia.
           rewrite Nat.div_add_l by lia.
           replace (1 + length items - 1)%nat with (length items) by lia.
           reflexivity.
        -- constructor; [lia|exact Hle].
        -- intros [|i] ch Hi Hlast; [by injection Hi as <-|].
           apply (Hfullpages i ch Hi). lia.
        -- constructor; [exact Hpos|exact Hys].
    + destruct (IH (y - line_h)%Q (cur ++ [(e, y)]))
        as (Hn & Hle & Hfullpages & Hys).
      * rewrite length_app. simpl. lia.
      * rewrite length_app. simpl. rewrite Nat.add_1_r.
        by apply line_y_succ.
      * intros j l Hl. apply lookup_app_Some in Hl as [Hl|[Hj Hl]].
        -- by apply Hpos.
        -- apply list_lookup_singleton_Some in Hl as [Hj0 <-]. simpl.
           replace j with (length cur) by lia. exact Hy.
      * rewrite length_app in Hn. cbn [length] in *. split_conj.
        -- rewrite Hn. do 2 f_equal. lia.
        -- exact Hle.
        -- exact Hfullpages.
        -- exact Hys.
Qed.

Lemma page_entries_shape (items : list entry) :
  length (page_entries items) = (1 + (length items - 1) / 31)%nat
  /\ Forall (fun ch => (length ch <= 31)%nat) (page_entries items)
  /\ (forall i ch, page_entries items !! i = Some ch ->
        (S i < length (page_entries items))%nat -> length ch = 31%nat)
  /\ Forall (fun ch => forall j l, ch !! j = Some l -> (l.2 == line_y j)%Q)
       (page_entries items).
Proof.
  unfold page_entries.
  apply (paginate_shape items header_y []); [simpl; lia| |done].
  unfold line_y. simpl. ring.
Qed.

(** X3.  On A4 with 7 mm lines a page of [draw_toc_pdf] takes 31 entries:
    the document has [1 + (n - 1) / 31] pages for [n] entries (one page,
    with the header only, for none), no page holds more than 31 entries and
    every page but the last holds exactly 31. *)
Theorem draw_toc_pdf_page_count {metrics : FontMetrics} (doc_title : pystr)
    (items : list entry) :
  length (draw_toc_pdf doc_title items)
  = (1 + (length items - 1) / 31)%nat
  /\ Forall (fun ch => (length ch <= 31)%nat) (page_entries items)
  /\ (forall i ch, page_entries items !! i = Some ch ->
        (S i < length (page_entries items))%nat -> length ch = 31%nat).
Proof.
  destruct (page_entries_shape items) as (Hn & Hle & Hfull & _).
  split_conj; [|exact Hle|exact Hfull].
  by rewrite draw_toc_pdf_render, length_map.
Qed.

Lemma entry_drawing_height {metrics : FontMetrics} (y : Q) (e : entry)
    (x y' : Q) (s : pystr) :
  DrawString x y' s ∈ entry_drawing y e -> y' = y.
Proof.
  unfold entry_drawing, line_with_leader, leader_ops.
  rewrite !elem_of_app, !elem_of_cons.
  intros [[?|[?|[?|Hnil]]]|[Hl|[?|[?|Hnil]]]];
    try discriminate; try congruence; try by apply elem_of_nil in Hnil.
  destruct (Qltb _ _); [|by apply elem_of_nil in Hl].
  apply list_elem_of_singleton in Hl. congruence.
Qed.

Lemma header_within_margins :
  (bottom + line_h <= top)%Q /\ (bottom + line_h <= top - 20 * mm)%Q
  /\ (top - 20 * mm <= top)%Q /\ (header_y <= top)%Q.
Proof.
  unfold header_y, top, height, bottom, line_h, A4, mm, Qle. simpl. lia.
Qed.

(** X4.  Every string that [draw_toc_pdf] draws, on every page, is drawn
    within the margins: at least one line height above the bottom margin
    and not above the top margin. *)
Theorem page_lines_within_margins {metrics : FontMetrics} (doc_title : pystr)
    (items : list entry) :
  Forall (fun pg : page =>
            forall x y s, DrawString x y s ∈ pg ->
              (bottom + line_h <= y)%Q /\ (y <= top)%Q)
    (draw_toc_pdf doc_title items).
Proof.
  destruct (page_entries_shape items) as (_ & Hle & _ & Hys).
  destruct header_within_margins as (Hh1 & Hh2 & Hh3 & Hh4).
  rewrite draw_toc_pdf_render. apply Forall_fmap.
  rewrite Forall_forall in *. intros ch Hch x y s.
  rewrite render_page_drawing. unfold page_drawing, header_drawing.
  rewrite elem_of_app, !elem_of_cons.
  intros [[?|[Hd|[?|[Hd|Hnil]]]]|Hin]; try discriminate.
  - injection Hd as _ -> _. split; [exact Hh1|apply Qle_refl].
  - injection Hd as _ -> _. split; [exact Hh2|exact Hh3].
  - by apply elem_of_nil in Hnil.
  - apply list_elem_of_In, in_flat_map in Hin as (l & Hl & Hop).
    apply list_elem_of_In in Hl, Hop.
    apply entry_drawing_height in Hop as ->.
    apply list_elem_of_lookup in Hl as [j Hj].
    specialize (Hle ch Hch). pose proof (Hys ch Hch j l Hj) as Hy.
    pose proof (lookup_lt_Some _ _ _ Hj) as Hlt.
    destruct (line_y_bounds j ltac:(lia)) as [Hlow Hhigh].
    rewrite Hy. split; [exact Hlow|]. eapply Qle_trans; [exact Hhigh|exact Hh4].
Qed.

(** ** Page layout: the dot leader *)

Lemma int_of_Q_floor (x : Q) : (0 <= x)%Q -> int_of_Q x = Qfloor x.
Proof.
  intros Hx. unfold int_of_Q, Qfloor. destruct x as [n d].
  apply Z.quot_div_nonneg; [|done].
  unfold Qle in Hx. simpl in *. lia.
Qed.

Lemma str_mul_dots (n : Z) : str_mul (py ".") n = replicate (Z.to_nat n) 46%N.
Proof.
  unfold str_mul. induction (Z.to_nat n) as [|k IH]; [reflexivity|].
  simpl. by rewrite <- IH.
Qed.

Section LeaderFacts.
Context {metrics : FontMetrics}.

(** X5.  The dot leader of a line never reaches into the page-number
    field: when the gap between title and page number is wider than one
    dot, [n >= 1] dots are drawn from [start], [n] dots fit before [end] and
    [n + 1] would not; otherwise no dots are drawn.  In both cases the page
    number is drawn, ending at the right margin's column. *)
Theorem dot_leader_fits (y : Q) (level : Z) (title : pystr) (pg : option Z) :
  let start := leader_start level title in
  let end_ := leader_end pg in
  (Qltb (start + dot_w) end_ = false ->
   line_ops y (level, title, pg) = line_with_leader y level title pg [])
  /\ (Qltb (start + dot_w) end_ = true ->
      exists n : nat,
        (1 <= n)%nat
        /\ line_ops y (level, title, pg)
           = line_with_leader y level title pg
               [DrawString start y (replicate n 46%N)]
        /\ (start + inject_Z (Z.of_nat n) * dot_w <= end_)%Q
        /\ (end_ < start + inject_Z (Z.of_nat n + 1) * dot_w)%Q).
Proof.
  cbn zeta. rewrite line_ops_leader. split; intros Hgap; rewrite Hgap; [done|].
  set (start := leader_start level title) in *.
  set (end_ := leader_end pg) in *.
  set (q := ((end_ - start) / dot_w)%Q).
  pose proof dot_width_pos as Hdot. fold (str_width (py ".") Helvetica 12) in Hdot.
  fold dot_w in Hdot.
  assert (Hlt : (start + dot_w < end_)%Q).
  { unfold Qltb in Hgap. apply negb_true_iff in Hgap.
    apply Qnot_le_lt. intros Hle%Qle_bool_iff. congruence. }
  assert (Hq : (dot_w * q == end_ - start)%Q).
  { unfold q. apply Qmult_div_r. intros H0. rewrite H0 in Hdot.
    by apply Qlt_irrefl in Hdot. }
  assert (Hq1 : (1 <= q)%Q).
  { apply Qnot_lt_le. intros Hq1.
    assert ((dot_w * q < dot_w * 1)%Q) as Hm
      by (apply Qmult_lt_l; assumption).
    rewrite Hq in Hm. lra. }
  assert (Hfloor : int_of_Q q = Qfloor q) by (apply int_of_Q_floor; lra).
  assert (Hn1 : 1 <= Qfloor q).
  { rewrite <- (Qfloor_Z 1). by apply Qfloor_resp_le. }
  exists (Z.to_nat (Qfloor q)). rewrite Z2Nat.id by lia. split_conj.
  - lia.
  - by rewrite str_mul_dots, Hfloor.
  - pose proof (Qfloor_le q) as Hle.
    assert ((dot_w * inject_Z (Qfloor q) <= dot_w * q)%Q) as Hm.
    { apply Qmult_le_l; assumption. }
    rewrite Hq in Hm. lra.
  - pose proof (Qlt_floor q) as Hgt.
    assert ((dot_w * q < dot_w * inject_Z (Qfloor q + 1))%Q) as Hm.
    { apply Qmult_lt_l; assumption. }
    rewrite Hq in Hm. lra.
Qed.

End LeaderFacts.

(** ** The ledger: counting rows *)

Lemma first_empty_row_unique (ws : worksheet) (r : nat) :
  (2 <= r)%nat -> get_row ws r = blank ->
  (forall r', (2 <= r' < r)%nat -> get_row ws r' <> blank) ->
  first_empty_row ws = r.
Proof.
  intros Hr Hblank Hbefore.
  destruct (first_empty_row_spec ws) as ([Hr0 _] & Hblank0 & Hbefore0).
  destruct (Nat.lt_trichotomy (first_empty_row ws) r) as [Hlt|[Heq|Hgt]].
  - by destruct (Hbefore (first_empty_row ws) ltac:(lia)).
  - exact Heq.
  - by destruct (Hbefore0 r ltac:(lia)).
Qed.






(** X7.  A merge into a ledger without gaps never writes over data: every
    row that held a value holds the same value afterwards. *)
Theorem append_master_keeps_data (ws : worksheet) (rows : list ledger_row)
    (dedupe : bool) (r : nat) :
  gap_free ws = true -> (2 <= r)%nat -> get_row ws r <> blank ->
  get_row (merge_rows ws rows dedupe) r = get_row ws r.
Proof.
  intros Hg Hr Hdata. destruct (merge_rows_spec_gen ws rows dedupe) as [_ Hout].
  destruct (first_empty_row_spec ws) as ([Hr0 _] & Hblank & _).
  apply Hout; [done|]. left.
  destruct (Nat.lt_ge_cases r (first_empty_row ws)) as [|Hge]; [done|].
  by destruct Hdata; apply (gap_free_rows ws (first_empty_row ws)).
Qed.

Lemma append_master_keeps_data_witness :
  let old := (py "Old", py "Start", Some 3) in
  get_row (merge_rows [cells_of old; blank] [(py "Doc", py "Intro", Some 1)] true) 2
  = cells_of old.
Proof.
  cbn zeta.
  rewrite (append_master_keeps_data
             [cells_of (py "Old", py "Start", Some 3); blank]
             [(py "Doc", py "Intro", Some 1)] true 2 eq_refl);
    [reflexivity|lia|discriminate].
Defined.

(** ** The ledger: creation and failures *)

Lemma first_empty_row_cleared (tws : worksheet) :
  first_empty_row (clear_demo_rows tws) = 2%nat.
Proof.
  apply first_empty_row_unique; [lia| |intros; lia].
  apply clear_demo_rows_blank. lia.
Qed.

Lemma written_rows_cleared (dedupe : bool) (tws : worksheet)
    (rows : list ledger_row) :
  written_rows dedupe (clear_demo_rows tws) rows = rows.
Proof.
  destruct dedupe; [|done]. apply kept_rows_all_blank, clear_demo_rows_all_blank.
Qed.

Lemma merge_rows_cleared (dedupe : bool) (tws : worksheet)
    (rows : list ledger_row) :
  (forall i v, rows !! i = Some v ->
     get_row (merge_rows (clear_demo_rows tws) rows dedupe) (2 + i) = cells_of v)
  /\ (forall r, (2 + length rows <= r)%nat ->
        get_row (merge_rows (clear_demo_rows tws) rows dedupe) r = blank).
Proof.
  destruct (merge_rows_spec_gen (clear_demo_rows tws) rows dedupe) as [Hin Hout].
  rewrite first_empty_row_cleared, written_rows_cleared in *. split.
  - exact Hin.
  - intros r Hr. rewrite Hout by (try lia; right; lia).
    apply clear_demo_rows_blank. lia.
Qed.



(** X9.  [append_master] raises, and writes nothing, when neither the
    ledger nor the template exists and when the ledger exists but is not a
    workbook.  When the ledger does not exist and the template is not a
    workbook it raises after the copy: the ledger path then holds the copy
    of the template. *)
Theorem append_master_failures {workbooks : Workbooks}
    (master template : pystr)
    (rows : list ledger_row) (dedupe : bool) (fs : files) :
  (fs !! master = None -> fs !! template = None ->
   append_master master template rows dedupe fs = (None, fs))
  /\ (forall f, fs !! master = Some f -> (forall ws, f <> Workbook ws) ->
        append_master master template rows dedupe fs = (None, fs))
  /\ (forall f, fs !! master = None -> fs !! template = Some f ->
        (forall ws, f <> Workbook ws) ->
        append_master master template rows dedupe fs
        = (None, <[master := f]> fs)).
Proof.
  unfold append_master, bind, path_exists, shutil_copy, load_workbook,
    wb_save, ret.
  split_conj.
  - intros Hm HT. rewrite Hm.
    rewrite bool_decide_eq_false_2 by (by intros [? ?]). simpl.
    by rewrite HT.
  - intros f Hm Hf. rewrite Hm.
    rewrite bool_decide_eq_true_2 by done. simpl. rewrite Hm.
    destruct f as [pages|ws|]; [done| |done]. by destruct (Hf ws).
  - intros f Hm HT Hf. rewrite Hm.
    rewrite bool_decide_eq_false_2 by (by intros [? ?]). simpl.
    rewrite HT, decide_False by (intros ->; congruence).
    rewrite lookup_insert_eq.
    destruct f as [pages|ws|]; [done| |done]. by destruct (Hf ws).
Qed.

(** X10.  [write_toc_excel] raises before it writes anything when the
    template does not exist; when the template is not a workbook it raises
    after the copy, and the output path holds the copy of the template. *)
Theorem write_toc_excel_failures {workbooks : Workbooks}
    (out_xlsx template doc_title : pystr)
    (items : list entry) (fs : files) :
  (fs !! template = None ->
   write_toc_excel out_xlsx template doc_title items fs = (None, fs))
  /\ (forall f, fs !! template = Some f -> (forall ws, f <> Workbook ws) ->
        write_toc_excel out_xlsx template doc_title items fs
        = (None, <[out_xlsx := f]> fs)).
Proof.
  unfold write_toc_excel, bind, shutil_copy, load_workbook, wb_save. split.
  - intros HT. by rewrite HT.
  - intros f HT Hf. rewrite HT.
    destruct (decide (template = out_xlsx)) as [->|Hne].
    + by rewrite insert_id.
    + rewrite lookup_insert_eq.
      destruct f as [pages|ws|]; [done| |done]. by destruct (Hf ws).
Qed.

(** ** The batch: counters and files *)

Section BatchMore.
Context {metrics : FontMetrics} {workbooks : Workbooks}.

Lemma batch_step_disk (cfg : RunConfig) (st : batch_state) (p : pdf) :
  disk (batch_step cfg st p) = (process_pdf cfg p (disk st)).2.
Proof.
  unfold batch_step. by destruct (process_pdf cfg p (disk st)) as [[[|]|] ?].
Qed.

Lemma batch_step_rows (cfg : RunConfig) (st : batch_state) (p : pdf) :
  master_rows (batch_step cfg st p)
  = master_rows st
    ++ match (process_pdf cfg p (disk st)).1 with
       | Some (Some rows) => rows
       | _ => []
       end.
Proof.
  unfold batch_step.
  destruct (process_pdf cfg p (disk st)) as [[[|]|] ?]; simpl;
    by rewrite ?app_nil_r.
Qed.

Lemma process_pdf_skips (cfg : RunConfig) (p : pdf) (fs : files) :
  skipped p = true -> process_pdf cfg p fs = (Some None, fs).
Proof.
  intros Hs. rewrite process_pdf_unfold. unfold skipped in Hs.
  destruct (outline p) as [o|]; [|done].
  by destruct (extract_bookmarks o).
Qed.

Lemma process_pdf_counts (cfg : RunConfig) (p : pdf) (fs : files) :
  skipped p = false -> (process_pdf cfg p fs).1 <> Some None.
Proof.
  intros Hs. rewrite process_pdf_unfold. unfold skipped in Hs.
  destruct (outline p) as [o|]; [|done].
  destruct (extract_bookmarks o) as [|e items]; [done|]. cbn zeta.
  destruct (_ !! template_xlsx cfg) as [f|]; [|done].
  destruct (decide _); [done|].
  destruct f; try done. by destruct (fill_sheet _ _ _).
Qed.

Lemma batch_fold_counts (cfg : RunConfig) (pdfs : list pdf) :
  forall st,
  let st' := fold_left (batch_step cfg) pdfs st in
  ok st <= ok st' /\ err st <= err st'
  /\ ok st' + err st'
     = ok st + err st
       + Z.of_nat (length (filter (fun p => skipped p = false) pdfs)).
Proof.
  induction pdfs as [|p pdfs IH]; intros st; cbn zeta; [simpl; lia|].
  cbn [fold_left]. specialize (IH (batch_step cfg st p)). cbn zeta in IH.
  destruct IH as (Hok & Herr & Hsum). rewrite filter_cons.
  destruct (skipped p) eqn:Hs.
  - rewrite decide_False by done.
    assert (Hst : batch_step cfg st p = st).
    { unfold batch_step. rewrite process_pdf_skips by done. by destruct st. }
    rewrite Hst in *. done.
  - rewrite decide_True by done. pose proof (process_pdf_counts cfg p (disk st) Hs).
    assert (Hstep : ok st <= ok (batch_step cfg st p)
                    /\ err st <= err (batch_step cfg st p)
                    /\ ok (batch_step cfg st p) + err (batch_step cfg st p)
                       = ok st + err st + 1).
    { unfold batch_step.
      destruct (process_pdf cfg p (disk st)) as [[[|]|] ?]; simpl in *;
        try done; lia. }
    cbn [length]. lia.
Qed.

Lemma batch_fold_frame (cfg : RunConfig) (pdfs : list pdf) (path : pystr) :
  Forall (fun p => path <> out_pdf_path cfg (stem p)
                   /\ path <> out_xlsx_path cfg (stem p)) pdfs ->
  forall st, disk (fold_left (batch_step cfg) pdfs st) !! path = disk st !! path.
Proof.
  induction 1 as [|p pdfs [Hpdf Hxlsx] _ IH]; intros st; [done|].
  cbn [fold_left]. rewrite IH, batch_step_disk. by apply process_pdf_frame.
Qed.

Lemma run_batch_result (cfg : RunConfig) (pdfs : list pdf) (fs : files) :
  let st := fold_left (batch_step cfg) pdfs (mkBatch [] 0 0 fs) in
  run_batch cfg pdfs fs
  = match master_rows st with
    | [] => (Some (ok st, err st), disk st)
    | rows =>
        match append_master (master_path cfg) (template_xlsx cfg) rows
                (dedupe_master cfg) (disk st) with
        | (Some _, fs') => (Some (ok st, err st), fs')
        | (None, fs') => (None, fs')
        end
    end.
Proof.
  cbn zeta. unfold run_batch, bind, ret.
  destruct (master_rows _) as [|v rows]; [done|].
  by destruct (append_master _ _ _ _ _) as [[[]|] fs'].
Qed.

(** X11.  When [run_batch] returns, both counters are non-negative and
    their sum is the number of documents that were not skipped: every
    document is counted once as a success or as a failure, except those
    whose outline is readable and empty, which are counted as neither. *)
Theorem run_batch_counts (cfg : RunConfig) (pdfs : list pdf) (fs : files)
    (a b : Z) :
  (run_batch cfg pdfs fs).1 = Some (a, b) ->
  0 <= a /\ 0 <= b
  /\ a + b = Z.of_nat (length (filter (fun p => skipped p = false) pdfs)).
Proof.
  intros Hrun. pose proof (run_batch_result cfg pdfs fs) as Hres.
  cbn zeta in Hres. rewrite Hres in Hrun.
  destruct (batch_fold_counts cfg pdfs (mkBatch [] 0 0 fs)) as (Hok & Herr & Hsum).
  cbn zeta in *. simpl in Hok, Herr, Hsum.
  set (st := fold_left (batch_step cfg) pdfs (mkBatch [] 0 0 fs)) in *.
  assert (Hab : a = ok st /\ b = err st).
  { destruct (master_rows st) as [|v rows]; [by injection Hrun as <- <-|].
    destruct (append_master _ _ _ _ _) as [[[]|] fs']; [|done].
    by injection Hrun as <- <-. }
  destruct Hab as [-> ->]. lia.
Qed.

(** X12.  A batch of documents that have no outline entries does nothing:
    [run_batch] returns (0, 0), writes no output and neither creates nor
    touches the ledger. *)
Theorem run_batch_all_skipped (cfg : RunConfig) (pdfs : list pdf) (fs : files) :
  Forall (fun p => skipped p = true) pdfs ->
  run_batch cfg pdfs fs = (Some (0, 0), fs).
Proof.
  intros Hall.
  assert (Hst : forall st, fold_left (batch_step cfg) pdfs st = st).
  { induction Hall as [|p pdfs Hp _ IH]; intros st; [done|].
    cbn [fold_left]. rewrite IH. unfold batch_step.
    rewrite process_pdf_skips by done. by destruct st. }
  pose proof (run_batch_result cfg pdfs fs) as Hres. cbn zeta in Hres.
  by rewrite Hst in Hres.
Qed.

(** X13.  [run_batch] writes nothing but the two outputs of its documents
    and the ledger: every other file, the template among them when it is
    none of these, is after the run what it was before, whether the run
    returns or raises. *)
Theorem run_batch_writes_only_outputs (cfg : RunConfig) (pdfs : list pdf)
    (fs : files) (path : pystr) :
  path <> master_path cfg ->
  Forall (fun p => path <> out_pdf_path cfg (stem p)
                   /\ path <> out_xlsx_path cfg (stem p)) pdfs ->
  (run_batch cfg pdfs fs).2 !! path = fs !! path.
Proof.
  intros Hm Hout. pose proof (run_batch_result cfg pdfs fs) as Hres.
  cbn zeta in Hres. rewrite Hres.
  pose proof (batch_fold_frame cfg pdfs path Hout (mkBatch [] 0 0 fs)) as Hf.
  simpl in Hf.
  destruct (master_rows _) as [|v rows]; [exact Hf|].
  pose proof (append_master_frame (master_path cfg) (template_xlsx cfg)
                (v :: rows) (dedupe_master cfg)
                (disk (fold_left (batch_step cfg) pdfs (mkBatch [] 0 0 fs)))
                path Hm) as Ha.
  destruct (append_master _ _ _ _ _) as [[[]|] fs']; simpl in *; congruence.
Qed.

Lemma batch_fold_rows (cfg : RunConfig) (pdfs : list pdf) :
  Forall (fun p => template_xlsx cfg <> out_pdf_path cfg (stem p)
                   /\ template_xlsx cfg <> out_xlsx_path cfg (stem p)) pdfs ->
  forall st,
    master_rows (fold_left (batch_step cfg) pdfs st)
    = master_rows st ++ batch_rows pdfs (disk st !! template_xlsx cfg).
Proof.
  induction 1 as [|p pdfs [Hpdf Hxlsx] _ IH]; intros st.
  - simpl. by rewrite app_nil_r.
  - cbn [fold_left]. rewrite IH, batch_step_rows, batch_step_disk.
    rewrite process_pdf_frame by done. rewrite process_pdf_rows by done.
    unfold batch_rows. cbn [flat_map]. by rewrite app_assoc.
Qed.

Lemma batch_paths_ok_split (cfg : RunConfig) (pdfs : list pdf) :
  batch_paths_ok cfg pdfs ->
  template_xlsx cfg <> master_path cfg
  /\ Forall (fun p => template_xlsx cfg <> out_pdf_path cfg (stem p)
                      /\ template_xlsx cfg <> out_xlsx_path cfg (stem p)) pdfs
  /\ Forall (fun p => master_path cfg <> out_pdf_path cfg (stem p)
                      /\ master_path cfg <> out_xlsx_path cfg (stem p)) pdfs.
Proof.
  intros [HTm Hall]. split_conj; [done|..];
    (eapply Forall_impl; [exact Hall|]); intros p (? & ? & ? & ?); done.
Qed.

Lemma run_batch_master (cfg : RunConfig) (pdfs : list pdf) (fs : files) :
  batch_paths_ok cfg pdfs ->
  (run_batch cfg pdfs fs).2 !! template_xlsx cfg = fs !! template_xlsx cfg
  /\ (run_batch cfg pdfs fs).2 !! master_path cfg
     = merged_master (dedupe_master cfg)
         (batch_rows pdfs (fs !! template_xlsx cfg))
         (fs !! master_path cfg) (fs !! template_xlsx cfg).
Proof.
  intros (HTm & HT & Hm)%batch_paths_ok_split.
  pose proof (run_batch_result cfg pdfs fs) as Hres. cbn zeta in Hres.
  rewrite Hres. clear Hres.
  pose proof (batch_fold_rows cfg pdfs HT (mkBatch [] 0 0 fs)) as Hrows.
  pose proof (batch_fold_frame cfg pdfs _ HT (mkBatch [] 0 0 fs)) as HfT.
  pose proof (batch_fold_frame cfg pdfs _ Hm (mkBatch [] 0 0 fs)) as Hfm.
  simpl in Hrows, HfT, Hfm.
  set (st := fold_left (batch_step cfg) pdfs (mkBatch [] 0 0 fs)) in *.
  rewrite <- Hrows.
  destruct (master_rows st) as [|v rows] eqn:Hmr; [done|].
  pose proof (append_master_frame (master_path cfg) (template_xlsx cfg)
                (v :: rows) (dedupe_master cfg) (disk st)
                (template_xlsx cfg) HTm) as HaT.
  pose proof (append_master_master (master_path cfg) (template_xlsx cfg)
                (v :: rows) (dedupe_master cfg) (disk st) ltac:(done)) as Ham.
  rewrite HfT, Hfm in Ham. rewrite HfT in HaT.
  by destruct (append_master _ _ _ _ _) as [[[]|] fs'].
Qed.

Lemma batch_rows_template (pdfs : list pdf) (template : option file) :
  batch_rows pdfs template <> [] ->
  exists tws, template = Some (Workbook tws).
Proof.
  unfold batch_rows. induction pdfs as [|p pdfs IH]; [done|].
  cbn [flat_map]. intros Hne.
  destruct (contributed_rows p template) as [|v rows] eqn:Hc.
  - by apply IH.
  - apply (contributed_rows_template p). by rewrite Hc.
Qed.

Lemma kept_as_is_accepted (s : pystr) : kept_as_is s = true -> accepted s = true.
Proof.
  unfold kept_as_is. intros Hs%bool_decide_eq_true.
  rewrite check_string_accepted in Hs. by destruct (accepted s).
Qed.

Lemma pdf_plain_accepts (p : pdf) : pdf_plain p = true -> sheet_accepts p = true.
Proof.
  unfold pdf_plain, sheet_accepts, items_accepted, entry_accepted.
  destruct (outline p) as [o|]; [|done].
  rewrite !forallb_forall. intros Hall e He.
  apply Hall, andb_prop in He as [H1 H2].
  by rewrite !kept_as_is_accepted.
Qed.

Lemma batch_rows_readable (pdfs : list pdf) (tws : worksheet) :
  Forall (fun p => pdf_plain p = true) pdfs ->
  batch_rows pdfs (Some (Workbook tws)) = readable_rows pdfs.
Proof.
  unfold batch_rows, readable_rows, contributed_rows.
  induction 1 as [|p pdfs Hp _ IH]; [done|]. cbn [flat_map]. f_equal; [|exact IH].
  apply pdf_plain_accepts in Hp. unfold sheet_accepts in Hp.
  destruct (outline p) as [o|]; [|done]. by rewrite Hp.
Qed.

(** X14.  A batch run in a folder without ledger, with a template that is
    a workbook, when a cell stores every string of the batch as it is (no
    control character that the sheet refuses, at most 32767 characters):
    when no document contributes a row no ledger is created; otherwise the
    new ledger holds, from row 2 on and in the order of the batch, the rows
    of all readable documents, merged by one call, and nothing else. *)
Theorem run_batch_fresh_ledger (cfg : RunConfig) (pdfs : list pdf)
    (fs : files) (tws : worksheet) :
  batch_paths_ok cfg pdfs ->
  fs !! master_path cfg = None ->
  fs !! template_xlsx cfg = Some (Workbook tws) ->
  Forall (fun p => pdf_plain p = true) pdfs ->
  (readable_rows pdfs = [] ->
   (run_batch cfg pdfs fs).2 !! master_path cfg = None)
  /\ (readable_rows pdfs <> [] ->
      exists ledger,
        (run_batch cfg pdfs fs).2 !! master_path cfg = Some (Workbook ledger)
        /\ (forall i v, readable_rows pdfs !! i = Some v ->
              get_row ledger (2 + i) = cells_of v)
        /\ (forall r, (2 + length (readable_rows pdfs) <= r)%nat ->
              get_row ledger r = blank)).
Proof.
  intros Hpaths Hm HT Hplain.
  destruct (run_batch_master cfg pdfs fs Hpaths) as [_ Hmaster].
  rewrite Hm, HT, batch_rows_readable in Hmaster by exact Hplain.
  unfold merged_master in Hmaster.
  split.
  - intros Hnil. by rewrite Hnil in Hmaster.
  - intros Hne. destruct (readable_rows pdfs) as [|v rows] eqn:Hrows; [done|].
    eexists. split; [exact Hmaster|]. apply merge_rows_cleared.
Qed.

Lemma kept_rows_none (ws : worksheet) (rows : list ledger_row) :
  (forall v, v ∈ rows -> cells_of v ∈ ws) -> kept_rows ws rows = [].
Proof.
  unfold kept_rows. induction rows as [|v rows IH]; intros Hall; [done|].
  rewrite filter_cons, decide_False.
  - apply IH. intros x Hx. apply Hall, elem_of_cons. by right.
  - intros Hn. apply Hn, Hall, elem_of_cons. by left.
Qed.

Lemma merge_rows_reloaded (ws : worksheet) (rows : list ledger_row) :
  gap_free ws = true ->
  Forall (fun v => reload_row (cells_of v) = cells_of v) rows ->
  kept_rows (reload_sheet (merge_rows ws rows true)) rows = []
  /\ merge_rows (reload_sheet (merge_rows ws rows true)) rows true
     = reload_sheet (merge_rows ws rows true).
Proof.
  intros Hg Hstable.
  assert (Hall : forall v, v ∈ rows ->
             cells_of v ∈ reload_sheet (merge_rows ws rows true)).
  { intros v Hv. rewrite Forall_forall in Hstable.
    rewrite <- (Hstable v Hv). unfold reload_sheet.
    apply list_elem_of_fmap_2. by apply merge_rows_holds_batch. }
  split.
  - by apply kept_rows_none.
  - unfold merge_rows at 1. apply append_rows_all_skipped.
    intros v Hv. apply existing_of_spec. split; [|done]. by apply Hall.
Qed.

(** A ledger row whose title is empty is never read back as it was
    written. *)
Lemma empty_title_row_not_stable (doc_title : pystr) (page : option Z) :
  reload_row (cells_of (doc_title, [], page)) <> cells_of (doc_title, [], page).
Proof.
  unfold reload_row, cells_of. cbn [fst snd mbind option_bind].
  rewrite reload_empty. congruence.
Qed.

(** X15.  Running the same batch a second time with dedupe appends
    nothing, provided that a cell stores every string of the batch as it is
    and every ledger row of the batch is read back from a saved workbook as
    it was written (and the files are distinct, and the ledger found by the
    first run has no data below an empty row when it is loaded).  The second
    run leaves the ledger file alone or, when the batch has rows, finds every
    row of the batch in the ledger, skips it and saves the ledger as it
    loaded it. *)
Theorem run_batch_twice_same_ledger_batch (cfg : RunConfig)
    (pdfs : list pdf) (fs : files) :
  dedupe_master cfg = true ->
  batch_paths_ok cfg pdfs ->
  ledger_gap_free cfg fs = true ->
  Forall (fun p => pdf_plain p = true) pdfs ->
  Forall (fun v => reload_row (cells_of v) = cells_of v)
    (batch_rows pdfs (fs !! template_xlsx cfg)) ->
  let rows := batch_rows pdfs (fs !! template_xlsx cfg) in
  let fs1 := (run_batch cfg pdfs fs).2 in
  let fs2 := (run_batch cfg pdfs fs1).2 in
  fs2 !! master_path cfg = fs1 !! master_path cfg
  \/ exists saved,
       fs1 !! master_path cfg = Some (Workbook saved)
       /\ kept_rows (reload_sheet saved) rows = []
       /\ fs2 !! master_path cfg = Some (Workbook (reload_sheet saved)).
Proof.
  intros Hd Hpaths Hgap _ Hstable. cbn zeta.
  destruct (run_batch_master cfg pdfs fs Hpaths) as [HT1 Hm1].
  destruct (run_batch_master cfg pdfs (run_batch cfg pdfs fs).2 Hpaths)
    as [_ Hm2].
  rewrite HT1 in Hm2. rewrite Hm2, Hm1, Hd. clear Hm1 Hm2.
  pose proof (batch_rows_template pdfs (fs !! template_xlsx cfg)) as HT.
  set (rows := batch_rows pdfs (fs !! template_xlsx cfg)) in *.
  unfold merged_master, ledger_gap_free in *.
  destruct rows as [|v rows'] eqn:Hrows; [by left|].
  destruct HT as [tws ->]; [done|].
  destruct (fs !! master_path cfg) as [[pages|stored|]|]; [by left| |by left|].
  - right. eexists. split; [reflexivity|].
    destruct (merge_rows_reloaded (reload_sheet stored) (v :: rows') Hgap Hstable)
      as [Hkept Hmerge].
    split; [exact Hkept|]. by rewrite Hmerge.
  - right. eexists. split; [reflexivity|].
    destruct (merge_rows_reloaded (clear_demo_rows (reload_sheet tws))
                (v :: rows')) as [Hkept Hmerge];
      [apply all_blank_gap_free, clear_demo_rows_all_blank|exact Hstable|].
    split; [exact Hkept|]. by rewrite Hmerge.
Qed.

Lemma batch_fold_outcomes (cfg : RunConfig) (pdfs : list pdf) (tws : worksheet) :
  Forall (fun p => template_xlsx cfg <> out_pdf_path cfg (stem p)
                   /\ template_xlsx cfg <> out_xlsx_path cfg (stem p)) pdfs ->
  forall st,
    disk st !! template_xlsx cfg = Some (Workbook tws) ->
    ok (fold_left (batch_step cfg) pdfs st)
    = ok st
      + Z.of_nat (length (filter (fun p => has_entries p && sheet_accepts p = true)
                            pdfs))
    /\ err (fold_left (batch_step cfg) pdfs st)
       = err st
         + Z.of_nat (length (filter
                               (fun p => unreadable p
                                         || has_entries p && negb (sheet_accepts p)
                                         = true) pdfs)).
Proof.
  induction 1 as [|p pdfs [Hpdf Hxlsx] _ IH]; intros st HT; [simpl; lia|].
  cbn [fold_left].
  destruct (IH (batch_step cfg st p)) as [Hok Herr].
  { rewrite batch_step_disk, process_pdf_frame by done. exact HT. }
  rewrite Hok, Herr, !filter_cons.
  unfold batch_step, has_entries, unreadable, sheet_accepts.
  rewrite process_pdf_unfold.
  destruct (outline p) as [o|].
  - destruct (extract_bookmarks o) as [|e items] eqn:Hitems.
    + rewrite !decide_False by done. simpl. lia.
    + cbn zeta. rewrite lookup_insert_ne, HT, decide_False by done.
      destruct (fill_sheet (reload_sheet tws) (stem p) (e :: items)) eqn:Hfill.
      * assert (Hacc : items_accepted (stem p) (e :: items) = true).
        { destruct (items_accepted _ _) eqn:Hacc; [done|].
          apply (fill_sheet_accepted (reload_sheet tws)) in Hacc. congruence. }
        rewrite Hacc. rewrite decide_True, decide_False by done.
        cbn [ok err length]. lia.
      * apply fill_sheet_accepted in Hfill. rewrite Hfill.
        rewrite decide_False, decide_True by done. cbn [ok err length]. lia.
  - rewrite decide_False, decide_True by done. cbn [ok err length]. lia.
Qed.

(** X16.  With a template that is a workbook (and is not an output of the
    batch) a document fails exactly when it cannot be read or when the
    sheet refuses one of its strings: the success counter is the number of
    documents with outline entries whose strings the sheet accepts, the
    failure counter the number of the documents that cannot be read or have
    entries with a string that the sheet refuses. *)
Theorem run_batch_counts_with_template (cfg : RunConfig) (pdfs : list pdf)
    (fs : files) (tws : worksheet) (a b : Z) :
  batch_paths_ok cfg pdfs ->
  fs !! template_xlsx cfg = Some (Workbook tws) ->
  (run_batch cfg pdfs fs).1 = Some (a, b) ->
  a = Z.of_nat (length (filter (fun p => has_entries p && sheet_accepts p = true)
                          pdfs))
  /\ b = Z.of_nat (length (filter
                             (fun p => unreadable p
                                       || has_entries p && negb (sheet_accepts p)
                                       = true) pdfs)).
Proof.
  intros (_ & HT & _)%batch_paths_ok_split HTws Hrun.
  pose proof (run_batch_result cfg pdfs fs) as Hres. cbn zeta in Hres.
  rewrite Hres in Hrun.
  destruct (batch_fold_outcomes cfg pdfs tws HT (mkBatch [] 0 0 fs) HTws)
    as [Hok Herr].
  set (st := fold_left (batch_step cfg) pdfs (mkBatch [] 0 0 fs)) in *.
  simpl in Hok, Herr.
  assert (Hab : a = ok st /\ b = err st).
  { destruct (master_rows st) as [|v rows]; [by injection Hrun as <- <-|].
    destruct (append_master _ _ _ _ _) as [[[]|] fs']; [|done].
    by injection Hrun as <- <-. }
  destruct Hab as [-> ->]. lia.
Qed.

End BatchMore.

Lemma example_batch_paths_ok : batch_paths_ok example_cfg example_batch.
Proof.
  unfold batch_paths_ok. apply (bool_decide_unpack _). vm_compute. exact I.
Qed.

Lemma run_batch_counts_witness :
  (run_batch (metrics := fixed_pitch_metrics)
     (workbooks := plain_workbooks) example_cfg example_batch
     example_files).1 = Some (1, 1)
  /\ 0 <= 1 /\ 0 <= 1
  /\ 1 + 1 = Z.of_nat (length (filter (fun p => skipped p = false) example_batch)).
Proof.
  split; [vm_compute; reflexivity|].
  apply (run_batch_counts (metrics := fixed_pitch_metrics)
           (workbooks := plain_workbooks) example_cfg
           example_batch example_files).
  vm_compute. reflexivity.
Defined.

Lemma run_batch_all_skipped_witness :
  run_batch (metrics := fixed_pitch_metrics)
    (workbooks := plain_workbooks) example_cfg [empty_pdf; empty_pdf]
    example_files
  = (Some (0, 0), example_files).
Proof.
  apply (run_batch_all_skipped (metrics := fixed_pitch_metrics)
           (workbooks := plain_workbooks)).
  repeat constructor.
Defined.

Lemma run_batch_writes_only_outputs_witness :
  (run_batch (metrics := fixed_pitch_metrics)
     (workbooks := plain_workbooks) example_cfg example_batch
     example_files).2 !! py "T.xlsx"
  = Some (Workbook example_template).
Proof.
  rewrite (run_batch_writes_only_outputs (metrics := fixed_pitch_metrics)
           (workbooks := plain_workbooks)).
  - reflexivity.
  - intros Heq. vm_compute in Heq. discriminate.
  - apply (bool_decide_unpack _). vm_compute. exact I.
Defined.

Lemma run_batch_fresh_ledger_witness :
  exists ledger,
    (run_batch (metrics := fixed_pitch_metrics)
       (workbooks := plain_workbooks) example_cfg example_batch
       example_files).2 !! master_path example_cfg
    = Some (Workbook ledger)
    /\ get_row ledger 2 = cells_of (py "Doc", py "Intro", Some 1)
    /\ get_row ledger 3 = cells_of (py "Doc", py "    Background", Some 2)
    /\ get_row ledger 4 = cells_of (py "Doc", py "Methods", Some 5)
    /\ get_row ledger 5 = blank.
Proof.
  destruct (run_batch_fresh_ledger (metrics := fixed_pitch_metrics)
              (workbooks := plain_workbooks)
              example_cfg example_batch example_files example_template
              example_batch_paths_ok eq_refl eq_refl) as [_ Hrows];
    [repeat constructor|].
  destruct Hrows as (ledger & Hm & Hin & Hout); [discriminate|].
  exists ledger. split_conj.
  - exact Hm.
  - by apply (Hin 0%nat).
  - by apply (Hin 1%nat).
  - by apply (Hin 2%nat).
  - apply Hout. vm_compute. lia.
Defined.

Lemma run_batch_twice_same_ledger_batch_witness :
  let run := run_batch (metrics := fixed_pitch_metrics)
               (workbooks := plain_workbooks) example_cfg example_batch in
  let fs1 := (run example_files).2 in
  let fs2 := (run fs1).2 in
  ledger_row_count example_cfg fs1 = 3%nat
  /\ ledger_row_count example_cfg fs2 = 3%nat
  /\ (fs2 !! master_path example_cfg = fs1 !! master_path example_cfg
      \/ exists saved,
           fs1 !! master_path example_cfg = Some (Workbook saved)
           /\ kept_rows (reload_sheet (workbooks := plain_workbooks) saved)
                (batch_rows example_batch (example_files !! py "T.xlsx")) = []
           /\ fs2 !! master_path example_cfg
              = Some (Workbook
                        (reload_sheet (workbooks := plain_workbooks) saved))).
Proof.
  split; [vm_compute; reflexivity|]. split; [vm_compute; reflexivity|].
  apply (run_batch_twice_same_ledger_batch (metrics := fixed_pitch_metrics)
           (workbooks := plain_workbooks)
           example_cfg example_batch example_files).
  - reflexivity.
  - exact example_batch_paths_ok.
  - vm_compute. reflexivity.
  - repeat constructor.
  - repeat constructor.
Defined.

Lemma run_batch_counts_with_template_witness :
  (run_batch (metrics := fixed_pitch_metrics)
     (workbooks := plain_workbooks) example_cfg example_batch
     example_files).1 = Some (1, 1)
  /\ 1 = Z.of_nat (length (filter (fun p => has_entries p && sheet_accepts p = true)
                             example_batch))
  /\ 1 = Z.of_nat (length (filter
                             (fun p => unreadable p
                                       || has_entries p && negb (sheet_accepts p)
                                       = true) example_batch)).
Proof.
  split; [vm_compute; reflexivity|].
  apply (run_batch_counts_with_template (metrics := fixed_pitch_metrics)
           (workbooks := plain_workbooks)
           example_cfg example_batch example_files example_template).
  - exact example_batch_paths_ok.
  - reflexivity.
  - vm_compute. reflexivity.
Defined.

(** ** Ledger rows and sheet rows *)

Lemma master_page_eq (pg : option Z) :
  match master_page pg with Some p => Some (CInt p) | None => None end
  = match pg with Some p => Some (CInt p) | None => None end
  <-> pg <> Some 0.
Proof.
  destruct pg as [p|]; simpl; [|done].
  destruct (Z.eqb_spec p 0) as [->|Hne]; split; try done.
  intros _ [= ->]. done.
Qed.

(** X17.  The ledger rows of a document are the rows of its sheet exactly
    when no entry has page number 0: for such an entry the sheet holds 0
    and the ledger an empty cell. *)
Theorem ledger_rows_match_sheet_rows (doc_title : pystr) (items : list entry) :
  map cells_of (master_rows_of doc_title items)
  = map (sheet_row doc_title) items
  <-> Forall (fun e => page_of e <> Some 0) items.
Proof.
  unfold master_rows_of. induction items as [|e items IH]; [done|].
  cbn [map]. rewrite Forall_cons, <- IH, <- (master_page_eq (page_of e)).
  unfold cells_of, sheet_row. cbn [fst snd]. split.
  - intros [= Hpage Hrest]. done.
  - intros [Hpage Hrest]. by rewrite Hpage, Hrest.
Qed.

(** ** The window *)

(** X18.  [on_start] with a folder that is empty or only whitespace opens
    the missing-folder dialog and does nothing else, whether or not the
    template exists: the folder test comes first. *)
Theorem on_start_blank_folder {metrics : FontMetrics} {workbooks : Workbooks}
    (iter_pdfs : pystr -> bool -> list pdf) (self : App) (fs : files) :
  strip (var_input self) = [] \/ strip (var_output self) = [] ->
  on_start iter_pdfs self fs
  = (Some [showerror (py "Fehlt was")
             (py "Bitte Eingabe- und Ausgabeordner w" ++ [228%N] ++ py "hlen.")],
     fs).
Proof.
  intros Hblank. unfold on_start.
  destruct (strip (var_input self)) as [|c inp]; [done|].
  destruct (strip (var_output self)) as [|c' out]; [done|].
  by destruct Hblank.
Qed.

Lemma on_start_blank_folder_witness :
  on_start (metrics := fixed_pitch_metrics) (workbooks := plain_workbooks)
    (fun _ _ => [example_pdf])
    (mkApp (py "T.xlsx") (py "   ") (py "out") false true) example_files
  = (Some [showerror (py "Fehlt was")
             (py "Bitte Eingabe- und Ausgabeordner w" ++ [228%N] ++ py "hlen.")],
     example_files).
Proof.
  apply (on_start_blank_folder (metrics := fixed_pitch_metrics)
           (workbooks := plain_workbooks)).
  left. reflexivity.
Defined.

(** ** The batch: outputs of a document *)

Lemma out_pdf_path_inj (cfg : RunConfig) (a b : pystr) :
  out_pdf_path cfg a = out_pdf_path cfg b -> a = b.
Proof.
  unfold out_pdf_path, path_join. intros Heq.
  do 2 apply app_inv_head in Heq. by apply app_inv_tail in Heq.
Qed.

Lemma out_xlsx_path_inj (cfg : RunConfig) (a b : pystr) :
  out_xlsx_path cfg a = out_xlsx_path cfg b -> a = b.
Proof.
  unfold out_xlsx_path, path_join. intros Heq.
  do 2 apply app_inv_head in Heq. by apply app_inv_tail in Heq.
Qed.

Lemma out_pdf_xlsx_differ (cfg : RunConfig) (a b : pystr) :
  out_pdf_path cfg a <> out_xlsx_path cfg b.
Proof.
  unfold out_pdf_path, out_xlsx_path, path_join. intros Heq.
  apply (f_equal last) in Heq. rewrite !app_assoc, !last_app in Heq.
  discriminate.
Qed.

Section BatchOutputs.
Context {metrics : FontMetrics} {workbooks : Workbooks}.

Lemma process_pdf_outputs (cfg : RunConfig) (p : pdf) (fs : files)
    (o : item) (tws sheet : worksheet) :
  outline p = Some o -> extract_bookmarks o <> [] ->
  fs !! template_xlsx cfg = Some (Workbook tws) ->
  template_xlsx cfg <> out_pdf_path cfg (stem p) ->
  template_xlsx cfg <> out_xlsx_path cfg (stem p) ->
  fill_sheet (reload_sheet tws) (stem p) (extract_bookmarks o) = Some sheet ->
  (process_pdf cfg p fs).2 !! out_pdf_path cfg (stem p)
  = Some (PdfFile (draw_toc_pdf (stem p) (extract_bookmarks o)))
  /\ (process_pdf cfg p fs).2 !! out_xlsx_path cfg (stem p)
     = Some (Workbook sheet).
Proof.
  intros Ho Hitems HT Hne Hnx Hfill. rewrite process_pdf_unfold, Ho.
  destruct (extract_bookmarks o) as [|e items]; [done|]. cbn zeta.
  rewrite lookup_insert_ne, HT, decide_False, Hfill by done. cbn [snd].
  rewrite lookup_insert_eq.
  by rewrite lookup_insert_ne, lookup_insert_eq
    by (symmetry; apply out_pdf_xlsx_differ).
Qed.

(** X19.  After a batch with a template that is a workbook, the output
    folder holds, for every document with outline entries whose strings the
    sheet accepts, its PDF and its sheet, provided no later document of the
    batch has the same stem (the outputs are named from the stem alone).
    The PDF holds the pages drawn from the entries; row [2 + i] of the sheet
    holds the document title, the indented title of entry [i] (both cut to
    32767 characters) and its page, and the rows after the last entry are
    empty. *)
Theorem run_batch_outputs_present (cfg : RunConfig)
    (before after : list pdf) (p : pdf) (fs : files) (o : item)
    (tws : worksheet) :
  batch_paths_ok cfg (before ++ p :: after) ->
  fs !! template_xlsx cfg = Some (Workbook tws) ->
  outline p = Some o -> extract_bookmarks o <> [] ->
  items_accepted (stem p) (extract_bookmarks o) = true ->
  Forall (fun q => stem q <> stem p) after ->
  let fs' := (run_batch cfg (before ++ p :: after) fs).2 in
  fs' !! out_pdf_path cfg (stem p)
  = Some (PdfFile (draw_toc_pdf (stem p) (extract_bookmarks o)))
  /\ exists sheet,
       fs' !! out_xlsx_path cfg (stem p) = Some (Workbook sheet)
       /\ (forall i e, extract_bookmarks o !! i = Some e ->
             get_row sheet (2 + i)
             = (Some (CStr (take max_cell_chars (stem p))),
                Some (CStr (take max_cell_chars
                              (replicate (4 * Z.to_nat (level_of e - 1)) 32%N
                               ++ title_of e))),
                match page_of e with Some n => Some (CInt n) | None => None end))
       /\ (forall r, (2 + length (extract_bookmarks o) <= r)%nat ->
             get_row sheet r = blank).
Proof.
  intros Hpaths HT Ho Hitems Hacc Hstems. cbn zeta.
  destruct (batch_paths_ok_split _ _ Hpaths) as (HTm & HTout & Hmout).
  apply Forall_app in HTout as [HTbefore HTrest].
  apply Forall_cons in HTrest as [[HTp HTx] _].
  apply Forall_app in Hmout as [_ Hmrest].
  apply Forall_cons in Hmrest as [[Hmp Hmx] _].
  destruct (fill_sheet_rows (reload_sheet tws) (stem p) _ Hacc)
    as (sheet & Hfill & Hin & Hout).
  assert (Hstep : forall st,
             disk st !! template_xlsx cfg = Some (Workbook tws) ->
             let st' := fold_left (batch_step cfg) (p :: after) st in
             disk st' !! out_pdf_path cfg (stem p)
             = Some (PdfFile (draw_toc_pdf (stem p) (extract_bookmarks o)))
             /\ disk st' !! out_xlsx_path cfg (stem p) = Some (Workbook sheet)).
  { intros st HTst. cbn zeta. cbn [fold_left].
    destruct (process_pdf_outputs cfg p (disk st) o tws sheet Ho Hitems HTst
                HTp HTx Hfill) as [Hpdf Hxlsx].
    rewrite !batch_fold_frame, batch_step_disk.
    - done.
    - eapply Forall_impl; [exact Hstems|]. intros q Hq. split.
      + intros Heq. symmetry in Heq. by apply out_pdf_xlsx_differ in Heq.
      + intros Heq%out_xlsx_path_inj. congruence.
    - eapply Forall_impl; [exact Hstems|]. intros q Hq. split.
      + intros Heq%out_pdf_path_inj. congruence.
      + apply out_pdf_xlsx_differ. }
  pose proof (run_batch_result cfg (before ++ p :: after) fs) as Hres.
  cbn zeta in Hres. rewrite Hres. clear Hres.
  rewrite fold_left_app.
  specialize (Hstep (fold_left (batch_step cfg) before (mkBatch [] 0 0 fs))).
  cbn zeta in Hstep.
  destruct Hstep as [Hpdf Hxlsx].
  { by rewrite batch_fold_frame. }
  set (st := fold_left (batch_step cfg) (p :: after) _) in *.
  assert (Hrows : forall i e, extract_bookmarks o !! i = Some e ->
             get_row sheet (2 + i)
             = (Some (CStr (take max_cell_chars (stem p))),
                Some (CStr (take max_cell_chars
                              (replicate (4 * Z.to_nat (level_of e - 1)) 32%N
                               ++ title_of e))),
                match page_of e with Some n => Some (CInt n) | None => None end)).
  { intros i e He. rewrite (Hin i e He). unfold stored_row, indented.
    by rewrite str_mul_spaces. }
  destruct (master_rows st) as [|v rows].
  { split; [exact Hpdf|]. exists sheet. split_conj; done. }
  pose proof (append_master_frame (master_path cfg) (template_xlsx cfg)
                (v :: rows) (dedupe_master cfg) (disk st)) as Hframe.
  pose proof (Hframe _ (not_eq_sym Hmp)) as Hfp.
  pose proof (Hframe _ (not_eq_sym Hmx)) as Hfx.
  destruct (append_master _ _ _ _ _) as [[[]|] fs']; simpl in *;
    (split; [by rewrite Hfp|]); exists sheet; rewrite Hfx; split_conj; done.
Qed.

End BatchOutputs.

Lemma run_batch_outputs_present_witness :
  let fs' := (run_batch (metrics := fixed_pitch_metrics)
                (workbooks := plain_workbooks) example_cfg
                ([empty_pdf] ++ example_pdf :: [unreadable_pdf])
                example_files).2 in
  fs' !! py "out/Doc_Inhaltsverzeichnis.pdf"
  = Some (PdfFile (draw_toc_pdf (metrics := fixed_pitch_metrics) (py "Doc")
                     example_items))
  /\ exists sheet,
       fs' !! py "out/Doc_Inhaltsverzeichnis.xlsx" = Some (Workbook sheet)
       /\ get_row sheet 3
          = (Some (CStr (py "Doc")), Some (CStr (py "    Background")),
             Some (CInt 2)).
Proof.
  destruct (run_batch_outputs_present (metrics := fixed_pitch_metrics)
              (workbooks := plain_workbooks)
              example_cfg [empty_pdf] [unreadable_pdf] example_pdf example_files
              (Sub [Dest (py "Intro") (Some 0) [];
                    Sub [Dest (py "Background") (Some 1) []];
                    Dest (py "Methods") (Some 4) []])
              example_template)
    as (Hpdf & sheet & Hxlsx & Hin & _).
  - unfold batch_paths_ok. apply (bool_decide_unpack _). vm_compute. exact I.
  - reflexivity.
  - reflexivity.
  - discriminate.
  - reflexivity.
  - repeat constructor. discriminate.
  - split; [exact Hpdf|]. exists sheet. split; [exact Hxlsx|].
    apply (Hin 1%nat (2, py "Background", Some 2)). reflexivity.
Defined.

(** ** Instances of the properties with inner conditions *)

Lemma dot_leader_fits_witness :
  exists n : nat,
    (1 <= n)%nat
    /\ line_ops (metrics := fixed_pitch_metrics) 0 (1, py "Intro", Some 1)
       = line_with_leader (metrics := fixed_pitch_metrics) 0 1 (py "Intro")
           (Some 1)
           [DrawString
              (leader_start (metrics := fixed_pitch_metrics) 1 (py "Intro"))
              0 (replicate n 46%N)].
Proof.
  destruct (proj2 (dot_leader_fits (metrics := fixed_pitch_metrics) 0 1
                     (py "Intro") (Some 1)))
    as (n & Hn & Hops & _); [vm_compute; reflexivity|].
  exists n. split; [exact Hn|exact Hops].
Defined.

Lemma append_master_failures_witness :
  append_master (workbooks := plain_workbooks) (py "out/M.xlsx") (py "T.xlsx")
    [(py "Doc", py "Intro", Some 1)] true ∅
  = (None, ∅).
Proof.
  apply (proj1 (append_master_failures (workbooks := plain_workbooks)
                  (py "out/M.xlsx") (py "T.xlsx")
                  [(py "Doc", py "Intro", Some 1)] true ∅)); reflexivity.
Defined.

Lemma write_toc_excel_failures_witness :
  write_toc_excel (workbooks := plain_workbooks)
    (py "out/Doc_Inhaltsverzeichnis.xlsx") (py "T.xlsx")
    (py "Doc") example_items broken_template_files
  = (None,
     <[py "out/Doc_Inhaltsverzeichnis.xlsx" := OtherFile]> broken_template_files).
Proof.
  apply (proj2 (write_toc_excel_failures (workbooks := plain_workbooks)
                  (py "out/Doc_Inhaltsverzeichnis.xlsx")
                  (py "T.xlsx") (py "Doc") example_items
                  broken_template_files) OtherFile); [reflexivity|discriminate].
Defined.
